(** * Delay and probability discounting task: the titration core of [task.js]

    Shallow embedding of the parts of [task.js] that carry state: the
    per-condition parameters built by [prepareSettings], the reward sampler
    [getRewardValue], the bracket update [updateParameters], the trial
    callbacks of the titration and distractor trials, and the conditional
    functions that decide which trials of a timeline entry run.

    Amounts are JavaScript numbers that only ever hold integers in this
    program (the configured amounts, the step and products of the step), so
    they are modelled as [Z].  The uniform draw [Math.random()] is an input
    [u : Q]; the sampler is computed with exact rational arithmetic, and
    [Math.round x] is [floor (x + 1/2)]. *)

From Stdlib Require Import ZArith QArith Qround Lia Lqa Ascii.
From stdpp Require Import base gmap strings list pretty.

Local Open Scope Z_scope.

(** ** Per-condition bracket state (the fields [tmin], [tmax], [bmin],
    [bmax] and [ip] of a trial parameter object). *)
Record Bracket := mkBracket {
  tmin : Z;
  tmax : Z;
  bmin : Z;
  bmax : Z;
  ip : option Z;   (* [undefined] is [None] *)
}.

(** Initial bracket of every titration condition in [prepareSettings]. *)
Definition initBracket (standard : Z) : Bracket :=
  mkBracket standard standard 0 0 None.

(** Diagnostics written by the program ([console.log]). *)
Inductive Diag :=
| InvalidResponse (response : string).

(** ** [updateParameters] (task.js, lines 478-518).
    The parameter object is mutated in place; here the updated bracket is
    returned together with the console output of the call. *)
Definition updateParameters (response : string) (reword : Z) (parameters : Bracket)
    (standard threshold : Z) : Bracket * list Diag :=
  let '(mkBracket tmin0 tmax0 bmin0 bmax0 ip0) := parameters in
  let checkIp (b : Bracket) : Bracket :=
    if tmax b - bmax b <=? threshold
    then mkBracket (tmin b) (tmax b) (bmin b) (bmax b) (Some reword)
    else b in
  if String.eqb response "A" then
    let b :=
      if reword <? bmin0 then
        (* (1C) *) mkBracket tmin0 tmax0 reword 0 ip0
      else if reword <=? tmin0 then
        (* (1B) *) mkBracket reword tmin0 bmin0 bmax0 ip0
      else
        (* (1A) *) mkBracket tmin0 reword bmin0 bmax0 ip0 in
    (checkIp b, [])
  else if String.eqb response "B" then
    let b :=
      if tmin0 <? reword then
        (* (2C) *) mkBracket reword standard bmin0 bmax0 ip0
      else if bmin0 <? reword then
        (* (2A) *) mkBracket tmin0 tmax0 reword bmin0 ip0
      else
        (* (2B) *) mkBracket tmin0 tmax0 bmin0 reword ip0 in
    (checkIp b, [])
  else
    (* default: log and return without touching the parameters *)
    (parameters, [InvalidResponse response]).

(** ** The bracket updater as the specification words it (section 4.3),
    used only to compare against [updateParameters]. *)
Inductive Choice := VariableChoice | StandardChoice.

Definition applyChoice_spec (chosen : Choice) (offeredReward : Z) (c : Bracket)
    (standardAmount convergenceThreshold : Z) : Bracket :=
  let c' :=
    match chosen with
    | VariableChoice =>
        if offeredReward <? bmin c then
          {| tmin := tmin c; tmax := tmax c; bmax := 0; bmin := offeredReward; ip := ip c |}
        else if offeredReward <=? tmin c then
          {| tmax := tmin c; tmin := offeredReward; bmin := bmin c; bmax := bmax c; ip := ip c |}
        else
          {| tmax := offeredReward; tmin := tmin c; bmin := bmin c; bmax := bmax c; ip := ip c |}
    | StandardChoice =>
        if tmin c <? offeredReward then
          {| tmax := standardAmount; tmin := offeredReward; bmin := bmin c; bmax := bmax c; ip := ip c |}
        else if bmin c <? offeredReward then
          {| bmax := bmin c; bmin := offeredReward; tmin := tmin c; tmax := tmax c; ip := ip c |}
        else
          {| bmax := offeredReward; tmin := tmin c; tmax := tmax c; bmin := bmin c; ip := ip c |}
    end in
  if tmax c' - bmax c' <=? convergenceThreshold
  then {| tmin := tmin c'; tmax := tmax c'; bmin := bmin c'; bmax := bmax c'; ip := Some offeredReward |}
  else c'.

Definition choiceLabel (c : Choice) : string :=
  match c with VariableChoice => "A" | StandardChoice => "B" end.

(** ** [getRewardValue] (task.js, lines 437-441).
    The JS function reads [parameters.tmax] and [parameters.bmax]; both are
    passed here.  [Math.round x] rounds half up: [floor (x + 1/2)]. *)
Definition jsRound (x : Q) : Z := Qfloor (x + (1 # 2))%Q.

Definition getRewardValue (parameters_tmax parameters_bmax step : Z) (random : Q) : Z :=
  let tmax' := (inject_Z parameters_tmax / inject_Z step)%Q in
  let bmax' := (inject_Z parameters_bmax / inject_Z step)%Q in
  jsRound (random * (tmax' - bmax') + bmax')%Q * step.

(** ** Sequences of calls of [updateParameters] on one condition. *)
Fixpoint runCalls (standard threshold : Z) (b : Bracket) (calls : list (string * Z)) : Bracket :=
  match calls with
  | [] => b
  | (response, reword) :: rest =>
      runCalls standard threshold (fst (updateParameters response reword b standard threshold)) rest
  end.

Definition validResponse (response : string) : bool :=
  String.eqb response "A" || String.eqb response "B".

(** Every call carries one of the two valid options. *)
Definition allValidResponses (calls : list (string * Z)) : bool :=
  forallb (fun c => validResponse (fst c)) calls.

(** Every call carries a valid option and a reward in the then current
    range [[bmax, tmax]], the range the sampler draws from. *)
Fixpoint callsInRange (standard threshold : Z) (b : Bracket) (calls : list (string * Z)) : bool :=
  match calls with
  | [] => true
  | (response, reword) :: rest =>
      validResponse response && (bmax b <=? reword) && (reword <=? tmax b) &&
      callsInRange standard threshold (fst (updateParameters response reword b standard threshold)) rest
  end.

Definition bracketOrdered (b : Bracket) : Prop :=
  bmax b <= bmin b <= tmin b /\ tmin b <= tmax b.

(** ** Repeated titration of one condition against a fixed subject.
    A subject is a policy saying, for an offered amount, whether the
    variable option 'A' is preferred. *)
Definition subjectResponse (prefersVariable : Z -> bool) (reword : Z) : string :=
  if prefersVariable reword then "A" else "B".

(** One titration trial: [handleOnDelaiedDiscountingStart] draws the reward,
    [handleOnDelaiedDiscountingFinish] applies the subject's answer. *)
Definition titrate (standard step threshold : Z) (prefersVariable : Z -> bool)
    (b : Bracket) (random : Q) : Bracket :=
  let reword := getRewardValue (tmax b) (bmax b) step random in
  fst (updateParameters (subjectResponse prefersVariable reword) reword b standard threshold).

Definition titrateAll (standard step threshold : Z) (prefersVariable : Z -> bool)
    (b : Bracket) (randoms : list Q) : Bracket :=
  fold_left (titrate standard step threshold prefersVariable) randoms b.

Definition width (b : Bracket) : Z := tmax b - bmax b.

(** ** Settings object ([getUserDefinedSettings], [prepareSettings]). *)
Record UserSettings := mkUserSettings {
  posttrialDelay : Z;
  distractorStart : Z;
  standard : Z;
  step : Z;
  temporalDelays : list Z;
  probabilities : list Z;
  maximumTrialCount : Z;
}.

Definition getUserDefinedSettings : UserSettings :=
  mkUserSettings 500 70 1000 50 [0; 2; 30; 180; 365] [100; 90; 75; 50; 25] 30.

Inductive ParamType := temporal_delay | probability_delay | distractor.

#[global] Instance ParamType_eq_dec : EqDecision ParamType.
Proof. solve_decision. Defined.

(** A trial parameter object: a titration condition (its delay in days or
    its probability in percent is [level]) or the distractor entry [d0],
    which has a name, a type and a counter only. *)
Inductive Param :=
| TrialParam (name : string) (type : ParamType) (level : Z) (count : Z) (br : Bracket)
| DistractorParam (name : string) (count : Z).

#[global] Instance Bracket_eq_dec : EqDecision Bracket.
Proof. solve_decision. Defined.

#[global] Instance Param_eq_dec : EqDecision Param.
Proof. solve_decision. Defined.

Definition param_name (p : Param) : string :=
  match p with TrialParam n _ _ _ _ => n | DistractorParam n _ => n end.

Definition param_type (p : Param) : ParamType :=
  match p with TrialParam _ t _ _ _ => t | DistractorParam _ _ => distractor end.

Definition param_bracket (p : Param) : option Bracket :=
  match p with TrialParam _ _ _ _ b => Some b | DistractorParam _ _ => None end.

(** [parameters.ip]; [undefined] on the distractor entry. *)
Definition param_ip (p : Param) : option Z :=
  match p with TrialParam _ _ _ _ b => ip b | DistractorParam _ _ => None end.

(** [parameters.count++] *)
Definition incr_count (p : Param) : Param :=
  match p with
  | TrialParam n t l c b => TrialParam n t l (c + 1) b
  | DistractorParam n c => DistractorParam n (c + 1)
  end.

(** The text built by [settings.stimuli.temporalDelay] and
    [settings.stimuli.probabilityDelay], kept as its three values. *)
Inductive Stimulus :=
| SEmpty
| STemporal (var std t : Z)
| SProbability (var std p : Z)
| SUndefined.

Record Variables := mkVariables {
  count : Z;
  reword : Z;
  stimulus : Stimulus;
  number_of_ips : Z;
}.

Record Settings := mkSettings {
  user : UserSettings;
  variables : Variables;
  threshold : Z;
  parameters : gmap string Param;
}.

Definition trialParameters (us : UserSettings) : list Param :=
  imap (fun idx val =>
          TrialParam (String.append "t" (pretty (Z.of_nat idx + 1))) temporal_delay val 0
                     (initBracket (standard us))) (temporalDelays us)
  ++ imap (fun idx val =>
          TrialParam (String.append "p" (pretty (Z.of_nat idx + 1))) probability_delay val 0
                     (initBracket (standard us))) (probabilities us)
  ++ [DistractorParam "d0" 0].

Definition prepareSettings (us : UserSettings) : Settings :=
  {| user := us;
     variables := mkVariables 0 0 SEmpty 0;
     threshold := step us;
     parameters := foldl (fun m p => <[param_name p := p]> m) ∅ (trialParameters us) |}.

Definition set_variables (s : Settings) (v : Variables) : Settings :=
  mkSettings (user s) v (threshold s) (parameters s).

Definition set_parameters (s : Settings) (m : gmap string Param) : Settings :=
  mkSettings (user s) (variables s) (threshold s) m.

Definition set_reword (v : Variables) (r : Z) : Variables :=
  mkVariables (count v) r (stimulus v) (number_of_ips v).

Definition set_stimulus (v : Variables) (st : Stimulus) : Variables :=
  mkVariables (count v) (reword v) st (number_of_ips v).

(** Results of the callbacks: [None] is a thrown [TypeError] (a property
    read on [undefined]). *)

(** [getStimulousString] (task.js, lines 448-468). *)
Definition getStimulousString (s : Settings) (trialName : string) : option Stimulus :=
  match parameters s !! trialName with
  | None => None
  | Some (TrialParam _ temporal_delay lvl _ _) =>
      Some (STemporal (reword (variables s)) (standard (user s)) lvl)
  | Some (TrialParam _ probability_delay lvl _ _) =>
      Some (SProbability (reword (variables s)) (standard (user s)) lvl)
  | Some _ => Some SUndefined
  end.

(** [handleOnDelaiedDiscountingStart] (task.js, lines 526-549), for the
    timeline variable [tiral_name = trialName] and the draw [random].
    [getRewardValue] on the distractor entry (no [tmax]) would compute
    [NaN]; the sequence never names it, and it is not modelled. *)
Definition handleOnDelaiedDiscountingStart (s : Settings) (trialName : string) (random : Q)
    : option Settings :=
  match parameters s !! trialName with
  | Some (TrialParam n t l c b) =>
      let params := <[trialName := TrialParam n t l (c + 1) b]> (parameters s) in
      let v := variables s in
      let r := getRewardValue (tmax b) (bmax b) (step (user s)) random in
      let s1 := mkSettings (user s) (mkVariables (count v + 1) r (stimulus v) (number_of_ips v))
                           (threshold s) params in
      match getStimulousString s1 trialName with
      | Some st => Some (set_variables s1 (set_stimulus (variables s1) st))
      | None => None
      end
  | _ => None
  end.

(** [data.response] is the index of the pressed button, or [null]. *)
Definition responseLabel (response : option Z) : string :=
  match response with
  | Some 0 => "A"
  | Some 1 => "B"
  | Some n => pretty n
  | None => "null"
  end.

(** [handleOnDelaiedDiscountingFinish] (task.js, lines 556-577); [saveData]
    only writes to the trial's data record. *)
Definition handleOnDelaiedDiscountingFinish (s : Settings) (trialName : string)
    (response : option Z) : option (Settings * list Diag) :=
  match parameters s !! trialName with
  | Some (TrialParam n t l c b) =>
      let '(b', log) := updateParameters (responseLabel response) (reword (variables s)) b
                                         (standard (user s)) (threshold s) in
      let s1 := set_parameters s (<[trialName := TrialParam n t l c b']> (parameters s)) in
      let v := variables s1 in
      let v' := match ip b' with
                | Some _ => mkVariables (count v) (reword v) (stimulus v) (number_of_ips v + 1)
                | None => v
                end in
      Some (set_variables s1 v', log)
  | _ => None
  end.

(** The "opposite" type chosen in [handleOnDistractorStart]. *)
Definition oppositeType (t : ParamType) : ParamType :=
  match t with
  | temporal_delay => probability_delay
  | probability_delay => temporal_delay
  | t => t
  end.

(** [handleOnDistractorStart] (task.js, lines 584-611).  [pick] is the index
    drawn by [sampleWithReplacement] among the parameter objects of the
    opposite type, [random] the draw of the dummy reward. *)
Definition handleOnDistractorStart (s : Settings) (lastTrialName : string) (pick : nat)
    (random : Q) : option Settings :=
  match parameters s !! lastTrialName with
  | None => None
  | Some lp =>
      let trialType := oppositeType (param_type lp) in
      let candidates :=
        filter (fun p => param_type p = trialType) (map snd (map_to_list (parameters s))) in
      match candidates !! pick, parameters s !! "d0" with
      | Some chosen, Some d0 =>
          let params := <["d0" := incr_count d0]> (parameters s) in
          let r := getRewardValue (standard (user s)) 0 (step (user s)) random in
          let s1 := mkSettings (user s) (set_reword (variables s) r) (threshold s) params in
          match getStimulousString s1 (param_name chosen) with
          | Some st => Some (set_variables s1 (set_stimulus (variables s1) st))
          | None => None
          end
      | _, _ => None
      end
  end.

(** [conditional_function] of [skipIfIpDetermined] (task.js, lines 228-232). *)
Definition ipUndetermined (s : Settings) (trialName : string) : option bool :=
  match parameters s !! trialName with
  | Some p => Some (if param_ip p then false else true)
  | None => None
  end.

(** [conditional_function] of [distractorTrial] (task.js, lines 273-276). *)
Definition distractorConditional (s : Settings) : bool :=
  distractorStart (user s) <=? count (variables s).

Inductive TrialKind := TitrationTrial (name : string) | FillerTrial.

(** One entry of the timeline variables: the [skipIfIpDetermined] block
    holding the titration trial followed by the distractor block.  The
    distractor's [on_finish] ([saveData] without parameters) changes no
    setting.  Returns the new settings and the trials that ran. *)
Definition runEntry (s : Settings) (trialName : string) (random : Q) (response : option Z)
    (pick : nat) (random' : Q) : option (Settings * list TrialKind) :=
  match ipUndetermined s trialName with
  | None => None
  | Some false => Some (s, [])
  | Some true =>
      match handleOnDelaiedDiscountingStart s trialName random with
      | None => None
      | Some s1 =>
          match handleOnDelaiedDiscountingFinish s1 trialName response with
          | None => None
          | Some (s2, _) =>
              if distractorConditional s2 then
                match handleOnDistractorStart s2 trialName pick random' with
                | Some s3 => Some (s3, [TitrationTrial trialName; FillerTrial])
                | None => None
                end
              else Some (s2, [TitrationTrial trialName])
          end
      end
  end.

(** The interleaving rule as the specification words it (section 4.5). *)
Definition fillerRule_spec (distractorStartThreshold totalTrialsRun : Z) : bool :=
  (distractorStartThreshold <=? totalTrialsRun) && Z.even totalTrialsRun.

(** The subject that always prefers the larger expected value: the
    standard amount is certain to be paid (only later) in a temporal-delay
    condition and is paid with [level] percent chance in a probability
    condition. *)
Definition evPolicy (type : ParamType) (level standard : Z) (offered : Z) : bool :=
  match type with
  | probability_delay => standard * level <? 100 * offered
  | _ => standard <? offered
  end.

(** The state kept along a titration against a consistent subject: the
    bracket is ordered inside [[0, standard]], its ends are multiples of the
    step, [tmin] is still the standard amount or an amount at which the
    subject chose 'A', and [bmin] is still 0 or an amount at which the
    subject chose 'B'. *)
Definition titrationInv (standard step : Z) (prefersVariable : Z -> bool) (b : Bracket) : Prop :=
  0 <= bmax b /\ bmax b <= bmin b /\ bmin b <= tmin b /\ tmin b <= tmax b /\ tmax b <= standard /\
  (step | tmin b) /\ (step | tmax b) /\ (step | bmin b) /\ (step | bmax b) /\
  (tmin b = standard \/ prefersVariable (tmin b) = true) /\
  (bmin b = 0 \/ prefersVariable (bmin b) = false).

(** ** Session level: the titration block over its timeline variables,
    the payoff trial and the summary. *)

Definition param_count (p : Param) : Z :=
  match p with TrialParam _ _ _ c _ => c | DistractorParam _ c => c end.

(** [parameters.ip !== undefined] *)
Definition param_resolved (p : Param) : bool :=
  match param_ip p with Some _ => true | None => false end.

(** Number of parameter objects whose indifference point is set. *)
Definition resolvedCount (m : gmap string Param) : nat :=
  size (filter (fun kv : string * Param => param_resolved kv.2 = true) m).

(** Every parameter object is stored under its own [name]. *)
Definition wellNamed (m : gmap string Param) : Prop :=
  forall (k : string) (p : Param), m !! k = Some p -> param_name p = k.

(** The inputs of one timeline entry: its [tiral_name], the draw of the
    titration reward, the recorded button, the distractor's pick among the
    opposite-kind conditions and the draw of its dummy reward. *)
Record Entry := mkEntry {
  e_name : string;
  e_random : Q;
  e_response : option Z;
  e_pick : nat;
  e_random' : Q;
}.

(** The block [doDelaiedDiscountingTask] runs its timeline once per entry
    of the trial sequence, in order. *)
Fixpoint runSession (s : Settings) (entries : list Entry) : option (Settings * list TrialKind) :=
  match entries with
  | [] => Some (s, [])
  | e :: rest =>
      match runEntry s (e_name e) (e_random e) (e_response e) (e_pick e) (e_random' e) with
      | None => None
      | Some (s1, tr1) =>
          match runSession s1 rest with
          | None => None
          | Some (s2, tr2) => Some (s2, tr1 ++ tr2)
          end
      end
  end.

Definition isTitration (t : TrialKind) : bool :=
  match t with TitrationTrial _ => true | FillerTrial => false end.

Definition isFiller (t : TrialKind) : bool :=
  match t with TitrationTrial _ => false | FillerTrial => true end.

(** [settings.parameters['d0'].count] *)
Definition distractorCount (s : Settings) : Z :=
  match parameters s !! "d0" with Some p => param_count p | None => 0 end.

(** [data.summary] written by [saveSummary] (task.js, lines 306-319). *)
Record Summary := mkSummary {
  total_trial_count : Z;
  summary_number_of_ips : Z;
  trial_parameters : gmap string Param;
}.

Definition saveSummary (s : Settings) : Summary :=
  mkSummary (count (variables s)) (number_of_ips (variables s)) (parameters s).

(** A row of [jsPsych.data]: the trial's [data.name] and the fields
    [reword] and [choices] written by [saveData]. *)
Record TrialData := mkTrialData {
  data_name : string;
  data_reword : Z;
  data_choices : Stimulus;
}.

(** [saveData] (task.js, lines 639-648) on the row of a finished trial. *)
Definition saveData (data : TrialData) (s : Settings) : TrialData :=
  mkTrialData (data_name data) (reword (variables s)) (stimulus (variables s)).

(** [handleOnPayoffStart] (task.js, lines 620-631): [pick] is the index drawn
    by [sampleWithReplacement] among the rows named 'delaied_discounting';
    with no such row, [selectedResult] is [undefined] and reading its
    [reword] throws. *)
Definition handleOnPayoffStart (data : list TrialData) (pick : nat) (s : Settings) : option Settings :=
  let trialResults := filter (fun r => data_name r = "delaied_discounting") data in
  match trialResults !! pick with
  | Some selectedResult =>
      let v := variables s in
      Some (set_variables s (mkVariables (count v) (data_reword selectedResult)
                                         (data_choices selectedResult) (number_of_ips v)))
  | None => None
  end.

(** The step of the fold in [prepareSettings]: [parameters[p.name] = p]. *)
Definition insertByName (m : gmap string Param) (p : Param) : gmap string Param :=
  <[param_name p := p]> m.

(** The array [handleOnDistractorStart] samples from:
    [Object.values(settings.parameters).filter((p) => p.type === t)]. *)
Definition candidatesOf (m : gmap string Param) (t : ParamType) : list Param :=
  filter (fun p => param_type p = t) (map snd (map_to_list m)).

(** Key [k] holds a titration condition of kind [t]. *)
Definition isConditionOf (m : gmap string Param) (k : string) (t : ParamType) : Prop :=
  exists n l c b, m !! k = Some (TrialParam n t l c b).

(** The names [prepareTrialSequence] (task.js, lines 416-429) builds its
    timeline variables from: [Object.keys(settings.parameters)] without
    'd0'.  The object's key order is not modelled (the list is then
    repeated and shuffled by jsPsych). *)
Definition trialNames (s : Settings) : list string :=
  filter (fun k => k <> "d0") (map fst (map_to_list (parameters s))).

#[global] Instance TrialKind_eq_dec : EqDecision TrialKind.
Proof. solve_decision. Defined.

(** [settings.parameters[k].count], 0 for a missing key. *)
Definition lookupCount (m : gmap string Param) (k : string) : Z :=
  match m !! k with Some p => param_count p | None => 0 end.

(** Number of titration trials of condition [k] in a list of trials run. *)
Definition titrationsOf (k : string) (trials : list TrialKind) : nat :=
  length (filter (fun t => t = TitrationTrial k) trials).

(** What the session keeps between entries: every parameter object is
    stored under its name, 'd0' holds the distractor entry, and
    [number_of_ips] counts the resolved conditions. *)
Definition sessionInv (s : Settings) : Prop :=
  wellNamed (parameters s) /\
  (exists c, parameters s !! "d0" = Some (DistractorParam "d0" c)) /\
  number_of_ips (variables s) = Z.of_nat (resolvedCount (parameters s)).

Example updateParameters_ex1 :
  fst (updateParameters "B" 550 (initBracket 1000) 1000 50) = mkBracket 1000 1000 550 0 None.
Proof. reflexivity. Qed.

(** ** Helper lemmas *)

Ltac zbool :=
  repeat match goal with
  | H : (_ <? _) = true |- _ => apply Z.ltb_lt in H
  | H : (_ <? _) = false |- _ => apply Z.ltb_ge in H
  | H : (_ <=? _) = true |- _ => apply Z.leb_le in H
  | H : (_ <=? _) = false |- _ => apply Z.leb_gt in H
  end.

(** Case analysis of one call of [updateParameters] with a valid response. *)
Ltac update_cases :=
  unfold updateParameters; simpl;
  repeat (case_match; simpl in *; zbool; try discriminate); simpl in *.

Lemma validResponse_cases (response : string) :
  validResponse response = true -> response = "A" \/ response = "B".
Proof.
  unfold validResponse. intros H. apply orb_true_iff in H as [H | H];
    apply String.eqb_eq in H; auto.
Qed.

Lemma jsRound_between (j k : Z) (x : Q) :
  (inject_Z j <= x <= inject_Z k)%Q -> j <= jsRound x <= k.
Proof.
  intros [Hj Hk]. unfold jsRound. split.
  - rewrite <- (Qfloor_Z j). apply Qfloor_resp_le.
    lra.
  - assert (Hlt : (inject_Z (Qfloor (x + (1 # 2))) < inject_Z (k + 1))%Q).
    { apply Qle_lt_trans with (x + (1 # 2))%Q; [apply Qfloor_le |].
      rewrite inject_Z_plus. change (inject_Z 1) with 1%Q. lra. }
    rewrite <- Zlt_Qlt in Hlt. lia.
Qed.

Lemma jsRound_exact (j : Z) (x : Q) : (x == inject_Z j)%Q -> jsRound x = j.
Proof.
  intros H. pose proof (jsRound_between j j x) as Hb.
  assert (Hx : (inject_Z j <= x <= inject_Z j)%Q) by lra.
  specialize (Hb Hx). lia.
Qed.

Lemma div_step_exact (j step : Z) :
  step <> 0 -> (inject_Z (j * step) / inject_Z step == inject_Z j)%Q.
Proof.
  intros Hs. rewrite inject_Z_mult. field.
  intros H. apply Hs. apply (proj1 (inject_Z_injective step 0)). exact H.
Qed.

Lemma affine_between (u a b : Q) :
  (0 <= u <= 1)%Q -> (a <= b)%Q -> (a <= u * (b - a) + a <= b)%Q.
Proof.
  intros [H0 H1] Hab.
  assert (P1 : (0 <= u * (b - a))%Q).
  { apply Qmult_le_0_compat; [exact H0 |]. apply Qle_minus_iff in Hab. exact Hab. }
  assert (P2 : (0 <= (1 - u) * (b - a))%Q).
  { apply Qmult_le_0_compat.
    - apply Qle_minus_iff in H1. exact H1.
    - apply Qle_minus_iff in Hab. exact Hab. }
  split; nra.
Qed.

(** The sampler on a bracket whose ends are multiples of the step. *)
Lemma getRewardValue_range (tmax_ bmax_ step : Z) (random : Q) (k j : Z) :
  0 < step -> (0 <= random <= 1)%Q -> tmax_ = k * step -> bmax_ = j * step -> j <= k ->
  exists m, getRewardValue tmax_ bmax_ step random = m * step /\ j <= m <= k.
Proof.
  intros Hs Hu -> -> Hjk. unfold getRewardValue.
  eexists; split; [reflexivity |]. apply jsRound_between.
  rewrite !div_step_exact by lia.
  apply affine_between; [exact Hu |]. rewrite <- Zle_Qle. exact Hjk.
Qed.

Lemma getRewardValue_zero_draw (tmax_ step j : Z) :
  step <> 0 -> getRewardValue tmax_ (j * step) step 0 = j * step.
Proof.
  intros Hs. unfold getRewardValue. f_equal. apply jsRound_exact.
  rewrite (div_step_exact j step Hs). ring.
Qed.

Lemma update_upper_bound_step (standard threshold reword : Z) (response : string) (b : Bracket) :
  validResponse response = true -> reword <= tmax b ->
  tmin b <= tmax b <= standard ->
  let b' := fst (updateParameters response reword b standard threshold) in
  tmin b' <= tmax b' <= standard.
Proof.
  intros Hv Hr Hb. apply validResponse_cases in Hv as [-> | ->];
    destruct b as [tn tx bn bx i]; simpl in *; update_cases; lia.
Qed.

Lemma update_ordered_step (standard threshold reword : Z) (response : string) (b : Bracket) :
  validResponse response = true -> bmax b <= reword <= tmax b ->
  0 <= bmax b /\ bracketOrdered b /\ tmax b <= standard ->
  let b' := fst (updateParameters response reword b standard threshold) in
  0 <= bmax b' /\ bracketOrdered b' /\ tmax b' <= standard.
Proof.
  unfold bracketOrdered. intros Hv Hr Hb. apply validResponse_cases in Hv as [-> | ->];
    destruct b as [tn tx bn bx i]; simpl in *; update_cases; lia.
Qed.

Lemma runCalls_upper_bound (standard threshold : Z) (calls : list (string * Z)) :
  forall b, tmin b <= tmax b <= standard -> callsInRange standard threshold b calls = true ->
  let b' := runCalls standard threshold b calls in tmin b' <= tmax b' <= standard.
Proof.
  induction calls as [| [resp r] rest IH]; intros b Hb Hc; simpl in *; [exact Hb |].
  apply andb_true_iff in Hc as [Hc Hrest]. apply andb_true_iff in Hc as [Hc Hr2].
  apply andb_true_iff in Hc as [Hv Hr1]. zbool.
  apply IH; [| exact Hrest]. apply update_upper_bound_step; assumption.
Qed.

Lemma runCalls_ordered (standard threshold : Z) (calls : list (string * Z)) :
  forall b, 0 <= bmax b /\ bracketOrdered b /\ tmax b <= standard ->
  callsInRange standard threshold b calls = true ->
  let b' := runCalls standard threshold b calls in
  0 <= bmax b' /\ bracketOrdered b' /\ tmax b' <= standard.
Proof.
  induction calls as [| [resp r] rest IH]; intros b Hb Hc; simpl in *; [exact Hb |].
  apply andb_true_iff in Hc as [Hc Hrest]. apply andb_true_iff in Hc as [Hc Hr2].
  apply andb_true_iff in Hc as [Hv Hr1]. zbool.
  apply IH; [| exact Hrest]. apply update_ordered_step; auto.
Qed.

Section ConsistentSubject.
Variables (standard step threshold : Z) (prefersVariable : Z -> bool).
Hypothesis step_pos : 0 < step.
Hypothesis standard_nonneg : 0 <= standard.
Hypothesis standard_quantized : (step | standard).
(** A consistent subject: preferring the variable amount at [r] means
    preferring it at every larger amount. *)
Hypothesis consistent :
  forall r r', r <= r' -> prefersVariable r = true -> prefersVariable r' = true.

Lemma titrationInv_init : titrationInv standard step prefersVariable (initBracket standard).
Proof.
  unfold titrationInv, initBracket; simpl.
  repeat split; try lia; try assumption; try apply Z.divide_0_r; auto.
Qed.

Lemma titrate_step (b : Bracket) (random : Q) :
  titrationInv standard step prefersVariable b -> (0 <= random <= 1)%Q ->
  titrationInv standard step prefersVariable (titrate standard step threshold prefersVariable b random)
  /\ width (titrate standard step threshold prefersVariable b random) <= width b.
Proof.
  destruct b as [tn tx bn bx i]. unfold titrationInv; simpl.
  intros (H0 & H1 & H2 & H3 & H4 & Dtn & [k Dtx] & Dbn & [j Dbx] & Ht & Hb) Hu.
  destruct (getRewardValue_range tx bx step random k j) as (m & Hm & Hjm); try assumption.
  { nia. }
  unfold titrate, width; simpl. rewrite Hm. clear Hm.
  assert (Hr : bx <= m * step <= tx) by nia.
  assert (NoC2 : prefersVariable (m * step) = false -> m * step <= tn).
  { intros Hp. destruct (Z.le_gt_cases (m * step) tn) as [Hle | Hgt]; [exact Hle |].
    destruct Ht as [Ht | Ht]; [lia |].
    rewrite (consistent tn (m * step) ltac:(lia) Ht) in Hp. discriminate. }
  assert (NoC1 : prefersVariable (m * step) = true -> bn <= m * step).
  { intros Hp. destruct (Z.le_gt_cases bn (m * step)) as [Hle | Hgt]; [exact Hle |].
    destruct Hb as [Hb | Hb]; [lia |].
    rewrite (consistent (m * step) bn ltac:(lia) Hp) in Hb. discriminate. }
  assert (Dr : (step | m * step)) by apply Z.divide_factor_r.
  assert (Dtx' : (step | tx)) by (exists k; exact Dtx).
  assert (Dbx' : (step | bx)) by (exists j; exact Dbx).
  unfold subjectResponse. destruct (prefersVariable (m * step)) eqn:Hp;
    [specialize (NoC1 eq_refl) | specialize (NoC2 eq_refl)];
    update_cases;
    repeat split;
    first [ lia | assumption | apply Z.divide_0_r | (left; reflexivity) | (right; assumption)
          | (left; lia) ].
Qed.

Lemma titrateAll_inv (randoms : list Q) :
  forall b, titrationInv standard step prefersVariable b ->
  Forall (fun u => 0 <= u <= 1)%Q randoms ->
  titrationInv standard step prefersVariable (titrateAll standard step threshold prefersVariable b randoms).
Proof.
  induction randoms as [| u rest IH]; intros b Hb Hf; simpl; [exact Hb |].
  inversion Hf as [| ? ? Hu Hrest]; subst.
  apply IH; [apply titrate_step |]; assumption.
Qed.

Lemma titrate_zero_draw_stalls (i : option Z) :
  prefersVariable 0 = false ->
  exists i', titrate standard step threshold prefersVariable (mkBracket standard standard 0 0 i) 0
             = mkBracket standard standard 0 0 i'.
Proof.
  intros Hp. unfold titrate; simpl.
  replace (getRewardValue standard 0 step 0) with 0.
  2:{ pose proof (getRewardValue_zero_draw standard step 0 ltac:(lia)) as E.
      rewrite Z.mul_0_l in E. symmetry. exact E. }
  unfold subjectResponse. rewrite Hp. update_cases; first [lia | eexists; reflexivity].
Qed.
End ConsistentSubject.

Lemma start_counts (s s1 : Settings) (trialName : string) (random : Q) :
  handleOnDelaiedDiscountingStart s trialName random = Some s1 ->
  count (variables s1) = count (variables s) + 1 /\ user s1 = user s.
Proof.
  unfold handleOnDelaiedDiscountingStart. repeat case_match; intros E; try discriminate.
  injection E as <-. simpl. auto.
Qed.

Lemma finish_counts (s s2 : Settings) (trialName : string) (response : option Z) (log : list Diag) :
  handleOnDelaiedDiscountingFinish s trialName response = Some (s2, log) ->
  count (variables s2) = count (variables s) /\ user s2 = user s.
Proof.
  unfold handleOnDelaiedDiscountingFinish. repeat case_match; intros E; try discriminate;
    injection E as <- _; simpl; auto.
Qed.

Lemma distractor_counts (s s3 : Settings) (lastTrialName : string) (pick : nat) (random : Q) :
  handleOnDistractorStart s lastTrialName pick random = Some s3 ->
  count (variables s3) = count (variables s) /\ user s3 = user s.
Proof.
  unfold handleOnDistractorStart. repeat case_match; intros E; try discriminate.
  injection E as <-. simpl. auto.
Qed.

(** ** Claims *)

(** C1: on a valid choice ('A' for Variable, 'B' for Standard),
    [updateParameters] performs exactly the six-branch case analysis of the
    specification, with its strict and non-strict comparisons, followed by
    the convergence check, and logs nothing. *)
Theorem updateParameters_six_branches :
  forall (chosen : Choice) (reword standard threshold : Z) (b : Bracket),
    updateParameters (choiceLabel chosen) reword b standard threshold
    = (applyChoice_spec chosen reword b standard threshold, []).
Proof.
  intros [] r S thr [tn tx bn bx i]; unfold updateParameters, applyChoice_spec;
    simpl; repeat (case_match; simpl); reflexivity.
Qed.

(** C6: a response other than 'A' and 'B' leaves the parameter object as it
    was (no bracket field, no [ip]; the convergence check is not reached)
    and writes one diagnostic naming the response. *)
Theorem updateParameters_invalid_response :
  forall (response : string) (reword standard threshold : Z) (b : Bracket),
    response <> "A" -> response <> "B" ->
    updateParameters response reword b standard threshold = (b, [InvalidResponse response]).
Proof.
  intros resp r S thr [tn tx bn bx i] HA HB; unfold updateParameters.
  apply String.eqb_neq in HA, HB. rewrite HA, HB. reflexivity.
Qed.


Lemma updateParameters_invalid_response_witness :
  "null" <> "A" /\ "null" <> "B" /\
  updateParameters (responseLabel None) 500 (initBracket 1000) 1000 50
  = (initBracket 1000, [InvalidResponse "null"]).
Proof.
  split; [discriminate | split; [discriminate |]].
  apply (updateParameters_invalid_response "null" 500 1000 50 (initBracket 1000));
    discriminate.
Defined.

(** C2 (as stated, refuted): with only the option restricted, one call
    with a reward above the standard amount breaks [tmin <= tmax]. *)
Lemma bracket_order_any_reward_cex :
  allValidResponses [("B", 1500)] = true /\
  ~ bracketOrdered (runCalls 1000 50 (initBracket 1000) [("B", 1500)]).
Proof.
  split; [reflexivity |]. unfold bracketOrdered; simpl. lia.
Qed.

(** C2 (amended): from the initial bracket with a non-negative standard
    amount, if every call carries a valid option and a reward in the
    current [[bmax, tmax]] (what the sampler draws), then
    [bmax <= bmin <= tmin <= tmax] holds after the calls. *)
Theorem bracket_order_invariant :
  forall (standard threshold : Z) (calls : list (string * Z)),
    0 <= standard ->
    callsInRange standard threshold (initBracket standard) calls = true ->
    bracketOrdered (runCalls standard threshold (initBracket standard) calls).
Proof.
  intros S thr calls HS Hc.
  apply (runCalls_ordered S thr calls (initBracket S)); [| exact Hc].
  unfold bracketOrdered, initBracket; simpl. lia.
Qed.

Lemma bracket_order_invariant_witness :
  0 <= 1000 /\
  callsInRange 1000 50 (initBracket 1000) [("B", 550); ("A", 900); ("B", 800)] = true /\
  bracketOrdered (runCalls 1000 50 (initBracket 1000) [("B", 550); ("A", 900); ("B", 800)]).
Proof.
  split; [lia | split; [reflexivity |]].
  apply bracket_order_invariant; [lia | reflexivity].
Defined.

(** C3: after a call with a valid option, whichever branch fired, [ip] is
    the offered reward when the new [tmax - bmax] is at most the threshold,
    and is left as it was otherwise; the threshold [prepareSettings] passes
    is the configured step. *)
Theorem updateParameters_convergence_check :
  forall (us : UserSettings) (response : string) (reword : Z) (b : Bracket),
    validResponse response = true ->
    threshold (prepareSettings us) = step us /\
    let b' := fst (updateParameters response reword b (standard us) (threshold (prepareSettings us))) in
    ip b' = (if tmax b' - bmax b' <=? step us then Some reword else ip b).
Proof.
  intros us resp r b Hv. split; [reflexivity |]. simpl.
  apply validResponse_cases in Hv as [-> | ->]; destruct b as [tn tx bn bx i];
    update_cases; first [reflexivity | lia].
Qed.

Lemma updateParameters_convergence_check_witness :
  validResponse "B" = true /\
  threshold (prepareSettings getUserDefinedSettings) = 50 /\
  ip (fst (updateParameters "B" 1000 (mkBracket 1000 1000 950 900 None) 1000
             (threshold (prepareSettings getUserDefinedSettings)))) = Some 1000.
Proof.
  split; [reflexivity |].
  destruct (updateParameters_convergence_check getUserDefinedSettings "B" 1000
              (mkBracket 1000 1000 950 900 None) eq_refl) as [Ht Hip].
  split; [exact Ht |]. etransitivity; [exact Hip | reflexivity].
Defined.

(** C4 (as stated, refuted): with [distractorStart = 1], the first entry
    of the session runs its titration trial with [count = 1], which is odd,
    and the distractor trial still runs right after it. *)
Lemma filler_even_rule_cex :
  match runEntry (prepareSettings (mkUserSettings 500 1 1000 50 [0; 2; 30; 180; 365]
                                                  [100; 90; 75; 50; 25] 30))
                 "t1" (1 # 2) (Some 1) 0 (1 # 3) with
  | Some (s', trials) =>
      trials = [TitrationTrial "t1"; FillerTrial] /\ count (variables s') = 1 /\
      fillerRule_spec 1 (count (variables s')) = false
  | None => False
  end.
Proof. vm_compute. split; [reflexivity | split; reflexivity]. Qed.

(** C4 (amended): an entry whose condition is unresolved runs its
    titration trial (counting it), and the filler trial runs right after it
    exactly when the trial count has reached [distractorStart], with no
    parity condition; an entry whose condition is resolved ([ip] set)
    runs neither trial and leaves the settings unchanged. *)
Theorem runEntry_filler_rule :
  forall (s : Settings) (trialName : string) (random : Q) (response : option Z) (pick : nat)
         (random' : Q) (s' : Settings) (trials : list TrialKind),
    runEntry s trialName random response pick random' = Some (s', trials) ->
    (exists p, parameters s !! trialName = Some p /\ param_resolved p = true /\
               trials = [] /\ s' = s) \/
    (exists p, parameters s !! trialName = Some p /\ param_resolved p = false /\
     ((trials = [TitrationTrial trialName; FillerTrial] /\
       count (variables s') = count (variables s) + 1 /\
       distractorStart (user s) <= count (variables s')) \/
      (trials = [TitrationTrial trialName] /\
       count (variables s') = count (variables s) + 1 /\
       count (variables s') < distractorStart (user s)))).
Proof.
  intros s nm u resp pick u' s' trials. unfold runEntry, ipUndetermined.
  destruct (parameters s !! nm) as [p |] eqn:Ep; [| discriminate].
  destruct (param_ip p) as [x |] eqn:Eip; simpl; intros E.
  { injection E as <- <-. left. exists p. unfold param_resolved. rewrite Eip. auto. }
  right. exists p. unfold param_resolved. rewrite Eip. split; [reflexivity | split; [reflexivity |]].
  revert E.
  destruct (handleOnDelaiedDiscountingStart s nm u) as [s1 |] eqn:E1; [| discriminate].
  destruct (handleOnDelaiedDiscountingFinish s1 nm resp) as [[s2 log] |] eqn:E2; [| discriminate].
  apply start_counts in E1 as [C1 U1]. apply finish_counts in E2 as [C2 U2].
  unfold distractorConditional. destruct (distractorStart (user s2) <=? count (variables s2)) eqn:Hd.
  - destruct (handleOnDistractorStart s2 nm pick u') as [s3 |] eqn:E3; [| discriminate].
    apply distractor_counts in E3 as [C3 U3]. intros E; injection E as <- <-.
    left. zbool. rewrite U2, U1 in Hd. split; [reflexivity | lia].
  - intros E; injection E as <- <-. right. zbool. rewrite U2, U1 in Hd.
    split; [reflexivity | lia].
Qed.

Lemma runEntry_filler_rule_witness :
  match runEntry (prepareSettings (mkUserSettings 500 1 1000 50 [0; 2; 30; 180; 365]
                                                  [100; 90; 75; 50; 25] 30))
                 "t1" (1 # 2) (Some 1) 0 (1 # 3) with
  | Some (s', trials) =>
      trials = [TitrationTrial "t1"; FillerTrial] /\ 1 <= count (variables s')
  | None => False
  end.
Proof.
  destruct (runEntry _ "t1" (1 # 2) (Some 1) 0 (1 # 3)) as [[s' trials] |] eqn:E.
  - destruct (runEntry_filler_rule _ _ _ _ _ _ _ _ E)
      as [(p & _ & _ & -> & _) | (p & _ & _ & [(-> & _ & H) | (-> & _)])].
    + vm_compute in E. discriminate.
    + split; [reflexivity | exact H].
    + vm_compute in E. discriminate.
  - vm_compute in E. discriminate.
Defined.

(** C5: [getRewardValue] is [round(u * (tmax/step - bmax/step) + bmax/step) * step];
    for a draw [u] in [[0, 1]] and bracket ends that are multiples of the
    step, the result is a multiple of the step in [[bmax, tmax]], and it is
    exactly [bmax] when [bmax = tmax]. *)
Theorem getRewardValue_quantized_in_range :
  forall (parameters_tmax parameters_bmax step : Z) (random : Q),
    0 < step -> (0 <= random <= 1)%Q ->
    (step | parameters_tmax) -> (step | parameters_bmax) -> parameters_bmax <= parameters_tmax ->
    let r := getRewardValue parameters_tmax parameters_bmax step random in
    r = jsRound (random * (inject_Z parameters_tmax / inject_Z step
                           - inject_Z parameters_bmax / inject_Z step)
                 + inject_Z parameters_bmax / inject_Z step)%Q * step /\
    (step | r) /\ parameters_bmax <= r <= parameters_tmax /\
    (parameters_bmax = parameters_tmax -> r = parameters_bmax).
Proof.
  intros tx bx st u Hs Hu [k Hk] [j Hj] Hle r.
  assert (Hjk : j <= k) by nia.
  destruct (getRewardValue_range tx bx st u k j Hs Hu Hk Hj Hjk) as (m & Hm & Hjm).
  split; [reflexivity |]. fold r in Hm.
  split; [rewrite Hm; apply Z.divide_factor_r |].
  split; [nia |]. intros Heq. assert (m = j) by nia. subst. lia.
Qed.

Lemma getRewardValue_quantized_in_range_witness :
  (0 < 50 /\ (0 <= 1 # 3 <= 1)%Q /\ (50 | 1000) /\ (50 | 550) /\ 550 <= 1000) /\
  (50 | getRewardValue 1000 550 50 (1 # 3)) /\ 550 <= getRewardValue 1000 550 50 (1 # 3) <= 1000.
Proof.
  assert (H : 0 < 50 /\ (0 <= 1 # 3 <= 1)%Q /\ (50 | 1000) /\ (50 | 550) /\ 550 <= 1000).
  { split; [lia | split; [split; vm_compute; discriminate | split; [exists 20 | split; [exists 11 | lia]]]];
      reflexivity. }
  split; [exact H |].
  destruct H as (H1 & H2 & H3 & H4 & H5).
  destruct (getRewardValue_quantized_in_range 1000 550 50 (1 # 3) H1 H2 H3 H4 H5)
    as (_ & D & R & _).
  split; [exact D | exact R].
Defined.

(** C8 (as stated, refuted): a subject who always takes the larger
    expected value (temporal-delay condition, standard 1000, step 50) faces
    draws [u = 0]: every offer is 0, the bracket never moves, and after 100
    trials, far more than [log2 (1000 / 50)], [tmax - bmax] is still 1000
    and no indifference point is set. *)
Lemma titration_log_bound_cex :
  width (titrateAll 1000 50 50 (evPolicy temporal_delay 30 1000) (initBracket 1000)
           (repeat 0%Q 100)) = 1000 /\
  ip (titrateAll 1000 50 50 (evPolicy temporal_delay 30 1000) (initBracket 1000)
        (repeat 0%Q 100)) = None.
Proof. vm_compute. split; reflexivity. Qed.

(** C8 (amended): against a consistent subject (preferring 'A' at an
    amount implies preferring it at every larger amount, as the
    expected-value subject does), with sampled rewards and a standard amount
    that is a non-negative multiple of the step, [tmax - bmax] never grows
    from one trial to the next; no iteration bound holds: when the subject
    prefers the standard at 0, draws [u = 0] leave the width at the standard
    amount for any number of trials. *)
Theorem titration_width_nonincreasing :
  forall (standard step threshold : Z) (prefersVariable : Z -> bool) (randoms : list Q) (random : Q),
    0 < step -> 0 <= standard -> (step | standard) ->
    (forall r r', r <= r' -> prefersVariable r = true -> prefersVariable r' = true) ->
    Forall (fun u => 0 <= u <= 1)%Q (randoms ++ [random]) ->
    width (titrateAll standard step threshold prefersVariable (initBracket standard) (randoms ++ [random]))
      <= width (titrateAll standard step threshold prefersVariable (initBracket standard) randoms)
    /\ (prefersVariable 0 = false -> forall n,
          width (titrateAll standard step threshold prefersVariable (initBracket standard)
                   (repeat 0%Q n)) = standard).
Proof.
  intros S st thr pol us u Hs HS HSq Hmono Hf. split.
  - apply Forall_app in Hf as [Hus Hu]. inversion Hu as [| ? ? Hu1 _]; subst.
    unfold titrateAll at 1. rewrite fold_left_app. simpl.
    apply titrate_step; try assumption.
    apply titrateAll_inv; try assumption. apply titrationInv_init; assumption.
  - intros Hp n. unfold initBracket.
    assert (Gen : forall i, exists i', titrateAll S st thr pol (mkBracket S S 0 0 i) (repeat 0%Q n)
                                       = mkBracket S S 0 0 i').
    { induction n as [| n IH]; intros i; simpl; [eexists; reflexivity |].
      destruct (titrate_zero_draw_stalls S st thr pol ltac:(assumption) ltac:(assumption) i Hp)
        as [i1 E].
      rewrite E. apply IH. }
    destruct (Gen None) as [i' ->]. unfold width; simpl. lia.
Qed.

Lemma titration_width_nonincreasing_witness :
  width (titrateAll 1000 50 50 (evPolicy probability_delay 50 1000) (initBracket 1000)
           [1 # 2; 1 # 4; 3 # 4])
    <= width (titrateAll 1000 50 50 (evPolicy probability_delay 50 1000) (initBracket 1000)
                [1 # 2; 1 # 4])
  /\ width (titrateAll 1000 50 50 (evPolicy probability_delay 50 1000) (initBracket 1000)
              (repeat 0%Q 7)) = 1000.
Proof.
  assert (Hmono : forall r r', r <= r' -> evPolicy probability_delay 50 1000 r = true ->
                               evPolicy probability_delay 50 1000 r' = true).
  { unfold evPolicy. intros r r' Hle H. zbool. apply Z.ltb_lt. lia. }
  destruct (titration_width_nonincreasing 1000 50 50 (evPolicy probability_delay 50 1000)
              [1 # 2; 1 # 4] (3 # 4) ltac:(lia) ltac:(lia) ltac:(exists 20; reflexivity) Hmono)
    as [H1 H2].
  { repeat constructor; vm_compute; discriminate. }
  split; [exact H1 | apply H2; reflexivity].
Defined.

(** C9: a distractor trial changes no condition's bracket: for every name,
    the fields [tmin], [tmax], [bmin], [bmax] and [ip] (when the entry has
    them) are the same after [handleOnDistractorStart] as before; only the
    counter of [d0] and the session's reward and stimulus change. *)
Theorem distractor_preserves_brackets :
  forall (s : Settings) (lastTrialName : string) (pick : nat) (random : Q) (s' : Settings),
    handleOnDistractorStart s lastTrialName pick random = Some s' ->
    forall n : string, parameters s' !! n ≫= param_bracket = parameters s !! n ≫= param_bracket.
Proof.
  intros s last pick u s'. unfold handleOnDistractorStart.
  destruct (parameters s !! last) as [lp |]; [| discriminate].
  destruct (filter _ _ !! pick) as [chosen |]; [| discriminate].
  destruct (parameters s !! "d0") as [d0 |] eqn:Ed0; [| discriminate].
  destruct (getStimulousString _ _) as [st |]; [| discriminate].
  intros E; injection E as <-. intros n; simpl.
  destruct (decide (n = "d0")) as [-> | Hne].
  - rewrite lookup_insert_eq, Ed0. destruct d0; reflexivity.
  - rewrite lookup_insert_ne by congruence. reflexivity.
Qed.

Lemma distractor_preserves_brackets_witness :
  match handleOnDistractorStart (prepareSettings getUserDefinedSettings) "t1" 2 (1 # 2) with
  | Some s' =>
      parameters s' !! "p3" ≫= param_bracket
      = parameters (prepareSettings getUserDefinedSettings) !! "p3" ≫= param_bracket
  | None => False
  end.
Proof.
  destruct (handleOnDistractorStart _ "t1" 2 (1 # 2)) as [s' |] eqn:E.
  - exact (distractor_preserves_brackets _ "t1" 2 (1 # 2) s' E "p3").
  - vm_compute in E. discriminate.
Defined.

(** C10: from the initial bracket, if every call carries a valid option and
    a reward in the current [[bmax, tmax]], then [tmax <= standard] after the
    calls, together with [tmin <= tmax], which the reset branch (2C,
    [tmax := standard], [tmin := reward]) keeps because of this bound. *)
Theorem bracket_upper_bound :
  forall (standard threshold : Z) (calls : list (string * Z)),
    callsInRange standard threshold (initBracket standard) calls = true ->
    let b := runCalls standard threshold (initBracket standard) calls in
    tmax b <= standard /\ tmin b <= tmax b.
Proof.
  intros S thr calls Hc b.
  destruct (runCalls_upper_bound S thr calls (initBracket S)) as [H1 H2]; [simpl; lia | exact Hc |].
  split; assumption.
Qed.

Lemma bracket_upper_bound_witness :
  callsInRange 1000 50 (initBracket 1000) [("A", 600); ("B", 650); ("A", 800)] = true /\
  tmax (runCalls 1000 50 (initBracket 1000) [("A", 600); ("B", 650); ("A", 800)]) <= 1000.
Proof.
  split; [reflexivity |].
  apply (bracket_upper_bound 1000 50 [("A", 600); ("B", 650); ("A", 800)]). reflexivity.
Defined.

(** ** Further properties of the code *)

Lemma foldl_insertByName_forall (P : string -> Param -> Prop) (l : list Param) :
  forall m : gmap string Param, map_Forall P m -> Forall (fun p => P (param_name p) p) l ->
  map_Forall P (foldl insertByName m l).
Proof.
  induction l as [| p l IH]; intros m Hm Hl; simpl; [exact Hm |].
  inversion Hl as [| ? ? Hp Hl']; subst.
  apply IH; [| exact Hl']. unfold insertByName. apply map_Forall_insert_2; assumption.
Qed.

Lemma foldl_insertByName_other (l : list Param) (k : string) :
  forall m : gmap string Param, Forall (fun q => param_name q <> k) l ->
  foldl insertByName m l !! k = m !! k.
Proof.
  induction l as [| q l IH]; intros m Hl; simpl; [reflexivity |].
  inversion Hl as [| ? ? Hq Hl']; subst.
  rewrite IH by exact Hl'. unfold insertByName. apply lookup_insert_ne. congruence.
Qed.

Lemma foldl_insertByName_lookup (l : list Param) (p : Param) :
  forall m : gmap string Param, p ∈ l -> Forall (fun q => param_name q = param_name p -> q = p) l ->
  foldl insertByName m l !! param_name p = Some p.
Proof.
  induction l as [| q l IH]; intros m Hin Hl; [apply not_elem_of_nil in Hin; contradiction |].
  simpl. inversion Hl as [| ? ? Hq Hl']; subst.
  destruct (decide (p ∈ l)) as [Hin' | Hnin]; [apply IH; assumption |].
  apply elem_of_cons in Hin as [-> | Hin]; [| contradiction].
  rewrite foldl_insertByName_other.
  - unfold insertByName. apply lookup_insert_eq.
  - apply Forall_forall. intros q' Hq' Heq. apply Hnin.
    rewrite Forall_forall in Hl'. rewrite <- (Hl' q' Hq' Heq). exact Hq'.
Qed.

Lemma prepareSettings_parameters (us : UserSettings) :
  parameters (prepareSettings us) = foldl insertByName ∅ (trialParameters us).
Proof. reflexivity. Qed.

Lemma trialParameters_shape (us : UserSettings) :
  Forall (fun p => param_ip p = None /\ param_count p = 0 /\
                   (param_bracket p = None \/ param_bracket p = Some (initBracket (standard us))))
         (trialParameters us).
Proof.
  unfold trialParameters. apply Forall_app; split; [| apply Forall_app; split].
  - apply Forall_forall. intros p Hp. apply list_elem_of_lookup in Hp as [i Hi].
    rewrite list_lookup_imap in Hi. destruct (temporalDelays us !! i); [| discriminate].
    injection Hi as <-. simpl. auto.
  - apply Forall_forall. intros p Hp. apply list_elem_of_lookup in Hp as [i Hi].
    rewrite list_lookup_imap in Hi. destruct (probabilities us !! i); [| discriminate].
    injection Hi as <-. simpl. auto.
  - repeat constructor; simpl; auto.
Qed.

Lemma trialParameters_names (us : UserSettings) (q : Param) :
  q ∈ trialParameters us ->
  (exists j v, temporalDelays us !! j = Some v /\
     q = TrialParam (String.append "t" (pretty (Z.of_nat j + 1))) temporal_delay v 0
                    (initBracket (standard us))) \/
  (exists j v, probabilities us !! j = Some v /\
     q = TrialParam (String.append "p" (pretty (Z.of_nat j + 1))) probability_delay v 0
                    (initBracket (standard us))) \/
  q = DistractorParam "d0" 0.
Proof.
  unfold trialParameters. intros Hq.
  apply elem_of_app in Hq as [Hq | Hq]; [| apply elem_of_app in Hq as [Hq | Hq]].
  - left. apply list_elem_of_lookup in Hq as [j Hj]. rewrite list_lookup_imap in Hj.
    destruct (temporalDelays us !! j) as [v |] eqn:Ev; [| discriminate].
    injection Hj as <-. eauto.
  - right; left. apply list_elem_of_lookup in Hq as [j Hj]. rewrite list_lookup_imap in Hj.
    destruct (probabilities us !! j) as [v |] eqn:Ev; [| discriminate].
    injection Hj as <-. eauto.
  - right; right. apply list_elem_of_singleton in Hq. exact Hq.
Qed.

Lemma prepareSettings_entries (us : UserSettings) :
  (forall (k : string) (p : Param), parameters (prepareSettings us) !! k = Some p ->
     param_name p = k /\ param_ip p = None /\ param_count p = 0 /\
     (param_bracket p = None \/ param_bracket p = Some (initBracket (standard us)))) /\
  parameters (prepareSettings us) !! "d0" = Some (DistractorParam "d0" 0).
Proof.
  rewrite prepareSettings_parameters. split.
  - intros k p Hk.
    assert (HF : map_Forall (fun k p => param_name p = k /\ param_ip p = None /\ param_count p = 0 /\
                   (param_bracket p = None \/ param_bracket p = Some (initBracket (standard us))))
                 (foldl insertByName ∅ (trialParameters us))).
    { apply foldl_insertByName_forall; [apply map_Forall_empty |].
      eapply Forall_impl; [apply trialParameters_shape |]. simpl. auto. }
    exact (HF k p Hk).
  - apply (foldl_insertByName_lookup _ (DistractorParam "d0" 0)).
    + unfold trialParameters. apply elem_of_app; right. apply elem_of_app; right.
      apply list_elem_of_singleton. reflexivity.
    + apply Forall_forall. intros q Hq Hn.
      destruct (trialParameters_names us q Hq) as [(j & v & _ & ->) | [(j & v & _ & ->) | ->]];
        simpl in Hn; [discriminate | discriminate | reflexivity].
Qed.

(** Extra X1: every entry of the map built by [prepareSettings] is stored
    under its own [name], has [count = 0] and no [ip], and a titration entry
    starts from [tmin = tmax = standard], [bmin = bmax = 0]; the key 'd0'
    holds the distractor entry. *)
Theorem prepareSettings_initial_entries (us : UserSettings) :
  (forall (k : string) (p : Param), parameters (prepareSettings us) !! k = Some p ->
     param_name p = k /\ param_ip p = None /\ param_count p = 0 /\
     (param_bracket p = None \/ param_bracket p = Some (initBracket (standard us)))) /\
  parameters (prepareSettings us) !! "d0" = Some (DistractorParam "d0" 0).
Proof. exact (prepareSettings_entries us). Qed.

(** Extra X2: the [i]-th temporal delay is stored under 't(i+1)' and the
    [i]-th probability under 'p(i+1)', each as a condition of that kind with
    its level and the initial bracket. *)
Theorem prepareSettings_condition_lookup (us : UserSettings) (i : nat) (val : Z) :
  (temporalDelays us !! i = Some val ->
   parameters (prepareSettings us) !! String.append "t" (pretty (Z.of_nat i + 1))
   = Some (TrialParam (String.append "t" (pretty (Z.of_nat i + 1))) temporal_delay val 0
                      (initBracket (standard us)))) /\
  (probabilities us !! i = Some val ->
   parameters (prepareSettings us) !! String.append "p" (pretty (Z.of_nat i + 1))
   = Some (TrialParam (String.append "p" (pretty (Z.of_nat i + 1))) probability_delay val 0
                      (initBracket (standard us)))).
Proof.
  rewrite prepareSettings_parameters. split; intros Hi.
  - match goal with |- _ !! ?k = Some ?p => change k with (param_name p) end.
    apply foldl_insertByName_lookup.
    + unfold trialParameters. apply elem_of_app; left. apply list_elem_of_lookup.
      exists i. rewrite list_lookup_imap, Hi. reflexivity.
    + apply Forall_forall. intros q Hq Hn.
      destruct (trialParameters_names us q Hq) as [(j & v & Hj & ->) | [(j & v & _ & ->) | ->]];
        simpl in Hn; try discriminate.
      injection Hn as Hn. change (pretty (Z.of_nat j + 1) = pretty (Z.of_nat i + 1)) in Hn.
      apply (inj (@pretty Z _)) in Hn.
      assert (j = i) as -> by lia. rewrite Hi in Hj. injection Hj as ->. reflexivity.
  - match goal with |- _ !! ?k = Some ?p => change k with (param_name p) end.
    apply foldl_insertByName_lookup.
    + unfold trialParameters. apply elem_of_app; right. apply elem_of_app; left.
      apply list_elem_of_lookup. exists i. rewrite list_lookup_imap, Hi. reflexivity.
    + apply Forall_forall. intros q Hq Hn.
      destruct (trialParameters_names us q Hq) as [(j & v & _ & ->) | [(j & v & Hj & ->) | ->]];
        simpl in Hn; try discriminate.
      injection Hn as Hn. change (pretty (Z.of_nat j + 1) = pretty (Z.of_nat i + 1)) in Hn.
      apply (inj (@pretty Z _)) in Hn.
      assert (j = i) as -> by lia. rewrite Hi in Hj. injection Hj as ->. reflexivity.
Qed.

Lemma prepareSettings_condition_lookup_witness :
  parameters (prepareSettings getUserDefinedSettings) !! "t3"
  = Some (TrialParam "t3" temporal_delay 30 0 (initBracket 1000)).
Proof.
  exact (proj1 (prepareSettings_condition_lookup getUserDefinedSettings 2 30) eq_refl).
Defined.

Lemma start_effect (s s1 : Settings) (n n' : string) (t : ParamType) (l c : Z) (b : Bracket) (random : Q) :
  parameters s !! n = Some (TrialParam n' t l c b) ->
  handleOnDelaiedDiscountingStart s n random = Some s1 ->
  parameters s1 = <[n := TrialParam n' t l (c + 1) b]> (parameters s) /\
  count (variables s1) = count (variables s) + 1 /\
  number_of_ips (variables s1) = number_of_ips (variables s) /\ user s1 = user s /\
  reword (variables s1) = getRewardValue (tmax b) (bmax b) (step (user s)) random /\
  getStimulousString s1 n = Some (stimulus (variables s1)).
Proof.
  intros Hn. unfold handleOnDelaiedDiscountingStart. rewrite Hn.
  destruct (getStimulousString _ n) as [st |] eqn:Est; [| discriminate].
  intros E; injection E as <-. simpl. repeat split; try reflexivity.
  rewrite <- Est. unfold getStimulousString. simpl. reflexivity.
Qed.

Lemma finish_effect (s s2 : Settings) (n n' : string) (t : ParamType) (l c : Z) (b : Bracket)
    (response : option Z) (log : list Diag) :
  parameters s !! n = Some (TrialParam n' t l c b) ->
  handleOnDelaiedDiscountingFinish s n response = Some (s2, log) ->
  let b' := fst (updateParameters (responseLabel response) (reword (variables s)) b
                                  (standard (user s)) (threshold s)) in
  parameters s2 = <[n := TrialParam n' t l c b']> (parameters s) /\
  count (variables s2) = count (variables s) /\
  number_of_ips (variables s2)
  = number_of_ips (variables s) + (match ip b' with Some _ => 1 | None => 0 end) /\
  user s2 = user s.
Proof.
  intros Hn. unfold handleOnDelaiedDiscountingFinish. rewrite Hn.
  destruct (updateParameters _ _ _ _ _) as [b' log'] eqn:Eu. simpl.
  intros E; injection E as <- _. simpl.
  destruct (ip b'); simpl; repeat split; lia.
Qed.

Lemma distractor_effect (s s3 : Settings) (last : string) (pick : nat) (random : Q) :
  handleOnDistractorStart s last pick random = Some s3 ->
  exists d0, parameters s !! "d0" = Some d0 /\
    parameters s3 = <["d0" := incr_count d0]> (parameters s) /\
    count (variables s3) = count (variables s) /\
    number_of_ips (variables s3) = number_of_ips (variables s) /\ user s3 = user s.
Proof.
  unfold handleOnDistractorStart.
  destruct (parameters s !! last) as [lp |]; [| discriminate].
  destruct (filter _ _ !! pick) as [chosen |]; [| discriminate].
  destruct (parameters s !! "d0") as [d0 |] eqn:Ed0; [| discriminate].
  destruct (getStimulousString _ _) as [st |]; [| discriminate].
  intros E; injection E as <-. exists d0. simpl. auto.
Qed.

Lemma runEntry_cases (s s' : Settings) (n : string) (random : Q) (response : option Z) (pick : nat)
    (random' : Q) (trials : list TrialKind) :
  runEntry s n random response pick random' = Some (s', trials) ->
  (trials = [] /\ s' = s /\ exists p, parameters s !! n = Some p /\ param_resolved p = true) \/
  exists n' t l c b s1 s2 log,
    parameters s !! n = Some (TrialParam n' t l c b) /\ ip b = None /\
    handleOnDelaiedDiscountingStart s n random = Some s1 /\
    handleOnDelaiedDiscountingFinish s1 n response = Some (s2, log) /\
    ((handleOnDistractorStart s2 n pick random' = Some s' /\ trials = [TitrationTrial n; FillerTrial])
     \/ (s' = s2 /\ trials = [TitrationTrial n])).
Proof.
  unfold runEntry, ipUndetermined.
  destruct (parameters s !! n) as [p |] eqn:Ep; [| discriminate].
  destruct (param_ip p) as [x |] eqn:Eip; simpl.
  { intros E; injection E as <- <-. left. split; [reflexivity |]. split; [reflexivity |].
    exists p. unfold param_resolved. rewrite Eip. auto. }
  destruct (handleOnDelaiedDiscountingStart s n random) as [s1 |] eqn:E1; [| discriminate].
  destruct p as [n' t l c b | n' c]; [| unfold handleOnDelaiedDiscountingStart in E1;
                                        rewrite Ep in E1; discriminate].
  destruct (handleOnDelaiedDiscountingFinish s1 n response) as [[s2 log] |] eqn:E2; [| discriminate].
  right. exists n', t, l, c, b, s1, s2, log.
  do 4 (split; [first [reflexivity | assumption] |]).
  match goal with H : _ = Some (s', trials) |- _ => revert H end.
  destruct (distractorConditional s2).
  - destruct (handleOnDistractorStart s2 n pick random') as [s3 |]; [| discriminate].
    intros E; injection E as <- <-. left. auto.
  - intros E; injection E as <- <-. right. auto.
Qed.

Lemma resolvedCount_insert_fresh (m : gmap string Param) (k : string) (w : Param) :
  m !! k = None ->
  resolvedCount (<[k := w]> m) = (resolvedCount m + if param_resolved w then 1 else 0)%nat.
Proof.
  intros Hk. unfold resolvedCount. destruct (param_resolved w) eqn:Ew.
  - rewrite map_filter_insert_True by (simpl; exact Ew).
    rewrite map_size_insert_None; [lia |].
    apply map_lookup_filter_None_2. left. exact Hk.
  - rewrite map_filter_insert_False by (simpl; rewrite Ew; discriminate).
    rewrite delete_id by exact Hk. lia.
Qed.

Lemma resolvedCount_insert (m : gmap string Param) (k : string) (v w : Param) :
  m !! k = Some v ->
  (resolvedCount (<[k := w]> m) + (if param_resolved v then 1 else 0)
   = resolvedCount m + if param_resolved w then 1 else 0)%nat.
Proof.
  intros Hk.
  rewrite <- (insert_delete_eq m k w).
  rewrite <- (insert_delete_id m k v Hk) at 2.
  rewrite !resolvedCount_insert_fresh by apply lookup_delete_eq. lia.
Qed.

Lemma lookupCount_insert (m : gmap string Param) (k j : string) (p : Param) :
  lookupCount (<[k := p]> m) j = if decide (k = j) then param_count p else lookupCount m j.
Proof.
  unfold lookupCount. destruct (decide (k = j)) as [<- | Hne].
  - rewrite lookup_insert_eq. reflexivity.
  - rewrite lookup_insert_ne by exact Hne. reflexivity.
Qed.

Lemma sessionInv_insert (s s' : Settings) (k : string) (p p' : Param) :
  sessionInv s -> parameters s !! k = Some p -> param_name p' = k ->
  (k = "d0" -> exists c, p' = DistractorParam "d0" c) ->
  parameters s' = <[k := p']> (parameters s) ->
  number_of_ips (variables s') + (if param_resolved p then 1 else 0)
  = number_of_ips (variables s) + (if param_resolved p' then 1 else 0) ->
  sessionInv s'.
Proof.
  intros (Hw & (c0 & Hd0) & Hips) Hk Hname Hd Hs' Hn.
  pose proof (resolvedCount_insert (parameters s) k p p' Hk) as Hc.
  unfold sessionInv. rewrite Hs'. split; [| split].
  - intros j q. destruct (decide (k = j)) as [<- | Hne].
    + rewrite lookup_insert_eq. intros E; injection E as <-. exact Hname.
    + rewrite lookup_insert_ne by exact Hne. apply Hw.
  - destruct (decide (k = "d0")) as [-> | Hne].
    + destruct (Hd eq_refl) as [c ->]. exists c. apply lookup_insert_eq.
    + exists c0. rewrite lookup_insert_ne by exact Hne. exact Hd0.
  - destruct (param_resolved p), (param_resolved p'); simpl in *; lia.
Qed.

Lemma sessionInv_not_d0 (s : Settings) (n n' : string) (t : ParamType) (l c : Z) (b : Bracket) :
  sessionInv s -> parameters s !! n = Some (TrialParam n' t l c b) -> n <> "d0".
Proof.
  intros (_ & (c0 & Hd0) & _) Hn ->. rewrite Hd0 in Hn. discriminate.
Qed.

Lemma sessionInv_runEntry (s s' : Settings) (n : string) (random : Q) (response : option Z)
    (pick : nat) (random' : Q) (trials : list TrialKind) :
  sessionInv s -> runEntry s n random response pick random' = Some (s', trials) -> sessionInv s'.
Proof.
  intros Hinv Hrun.
  destruct (runEntry_cases _ _ _ _ _ _ _ _ Hrun)
    as [(_ & -> & _) | (n' & t & l & c & b & s1 & s2 & log & Hn & Hip & E1 & E2 & Hrest)];
    [exact Hinv |].
  assert (Hnd : n <> "d0") by exact (sessionInv_not_d0 _ _ _ _ _ _ _ Hinv Hn).
  assert (Hname : n' = n) by exact (proj1 Hinv n _ Hn).
  destruct (start_effect _ _ _ _ _ _ _ _ _ Hn E1) as (P1 & _ & N1 & _).
  assert (Hinv1 : sessionInv s1).
  { apply (sessionInv_insert s s1 n _ (TrialParam n' t l (c + 1) b) Hinv Hn); auto.
    - intros ->; contradiction.
    - rewrite N1. unfold param_resolved. simpl. lia. }
  assert (Hn1 : parameters s1 !! n = Some (TrialParam n' t l (c + 1) b))
    by (rewrite P1; apply lookup_insert_eq).
  destruct (finish_effect _ _ _ _ _ _ _ _ _ _ Hn1 E2) as (P2 & _ & N2 & _).
  assert (Hinv2 : sessionInv s2).
  { refine (sessionInv_insert s1 s2 n _ _ Hinv1 Hn1 _ _ P2 _);
      [exact Hname | intros ->; contradiction |].
    rewrite N2. unfold param_resolved. simpl. rewrite Hip. destruct (ip (fst _)); lia. }
  destruct Hrest as [(E3 & _) | (-> & _)]; [| exact Hinv2].
  destruct (distractor_effect _ _ _ _ _ E3) as (d0 & Hd0 & P3 & _ & N3 & _).
  destruct Hinv2 as (Hw2 & (c2 & Hd2) & Hips2).
  rewrite Hd2 in Hd0. injection Hd0 as <-.
  apply (sessionInv_insert s2 s' "d0" (DistractorParam "d0" c2) (DistractorParam "d0" (c2 + 1)));
    auto.
  - split; [exact Hw2 | split; [exists c2; exact Hd2 | exact Hips2]].
  - intros _. exists (c2 + 1). reflexivity.
  - rewrite N3. simpl. lia.
Qed.

Lemma sessionInv_runSession (entries : list Entry) :
  forall (s s' : Settings) (trials : list TrialKind),
  sessionInv s -> runSession s entries = Some (s', trials) -> sessionInv s'.
Proof.
  induction entries as [| e rest IH]; intros s s' trials Hinv; simpl.
  - intros E; injection E as <- _. exact Hinv.
  - destruct (runEntry s _ _ _ _ _) as [[s1 tr1] |] eqn:E1; [| discriminate].
    destruct (runSession s1 rest) as [[s2 tr2] |] eqn:E2; [| discriminate].
    intros E; injection E as <- _.
    exact (IH s1 s2 tr2 (sessionInv_runEntry _ _ _ _ _ _ _ _ Hinv E1) E2).
Qed.

Lemma sessionInv_prepareSettings (us : UserSettings) : sessionInv (prepareSettings us).
Proof.
  destruct (prepareSettings_entries us) as [Hall Hd0].
  split; [| split].
  - intros k p Hk. exact (proj1 (Hall k p Hk)).
  - exists 0. exact Hd0.
  - unfold resolvedCount. rewrite map_empty_filter_2; [rewrite map_size_empty; reflexivity |].
    intros k p Hk. simpl. unfold param_resolved. rewrite (proj1 (proj2 (Hall k p Hk))).
    discriminate.
Qed.

Lemma titrationsOf_app (k : string) (l1 l2 : list TrialKind) :
  titrationsOf k (l1 ++ l2) = (titrationsOf k l1 + titrationsOf k l2)%nat.
Proof. unfold titrationsOf. rewrite filter_app, length_app. reflexivity. Qed.

Lemma runEntry_counts (s s' : Settings) (n : string) (random : Q) (response : option Z)
    (pick : nat) (random' : Q) (trials : list TrialKind) :
  sessionInv s -> runEntry s n random response pick random' = Some (s', trials) ->
  count (variables s') = count (variables s)
    + Z.of_nat (length (filter (fun t => isTitration t = true) trials)) /\
  lookupCount (parameters s') "d0" = lookupCount (parameters s) "d0"
    + Z.of_nat (length (filter (fun t => isFiller t = true) trials)) /\
  (forall k, k <> "d0" ->
     lookupCount (parameters s') k = lookupCount (parameters s) k + Z.of_nat (titrationsOf k trials)).
Proof.
  intros Hinv Hrun.
  destruct (runEntry_cases _ _ _ _ _ _ _ _ Hrun)
    as [(-> & -> & _) | (n' & t & l & c & b & s1 & s2 & log & Hn & Hip & E1 & E2 & Hrest)].
  { simpl. split; [lia | split; [lia |]]. intros k _. unfold titrationsOf. simpl. lia. }
  assert (Hnd : n <> "d0") by exact (sessionInv_not_d0 _ _ _ _ _ _ _ Hinv Hn).
  destruct (start_effect _ _ _ _ _ _ _ _ _ Hn E1) as (P1 & C1 & _).
  assert (Hn1 : parameters s1 !! n = Some (TrialParam n' t l (c + 1) b))
    by (rewrite P1; apply lookup_insert_eq).
  destruct (finish_effect _ _ _ _ _ _ _ _ _ _ Hn1 E2) as (P2 & C2 & _).
  assert (L2 : forall j, lookupCount (parameters s2) j
                         = if decide (n = j) then c + 1 else lookupCount (parameters s) j).
  { intros j. rewrite P2, lookupCount_insert, P1, lookupCount_insert. simpl.
    destruct (decide (n = j)); reflexivity. }
  assert (Ls : lookupCount (parameters s) n = c) by (unfold lookupCount; rewrite Hn; reflexivity).
  destruct Hrest as [(E3 & ->) | (-> & ->)].
  - destruct (distractor_effect _ _ _ _ _ E3) as (d0 & Hd0 & P3 & C3 & _).
    assert (L3 : forall j, lookupCount (parameters s') j
                           = if decide ("d0" = j) then lookupCount (parameters s2) "d0" + 1
                             else lookupCount (parameters s2) j).
    { intros j. rewrite P3, lookupCount_insert. destruct (decide ("d0" = j)); [| reflexivity].
      unfold lookupCount. rewrite Hd0. destruct d0; reflexivity. }
    split; [| split].
    + rewrite C3, C2, C1. reflexivity.
    + rewrite (L3 "d0"), (L2 "d0").
      destruct (decide ("d0" = "d0")); [| congruence].
      destruct (decide (n = "d0")); [congruence |]. reflexivity.
    + intros k Hk. rewrite (L3 k), (L2 k).
      destruct (decide ("d0" = k)); [congruence |].
      unfold titrationsOf. rewrite !filter_cons, filter_nil.
      rewrite (decide_False (P := FillerTrial = TitrationTrial k)) by discriminate.
      destruct (decide (n = k)) as [<- | Hne].
      * rewrite decide_True by reflexivity. simpl. lia.
      * rewrite decide_False by congruence. simpl. lia.
  - split; [| split].
    + rewrite C2, C1. reflexivity.
    + rewrite (L2 "d0"). destruct (decide (n = "d0")); [congruence |]. simpl. lia.
    + intros k Hk. rewrite (L2 k).
      unfold titrationsOf. rewrite !filter_cons, filter_nil.
      destruct (decide (n = k)) as [<- | Hne].
      * rewrite decide_True by reflexivity. simpl. lia.
      * rewrite decide_False by congruence. simpl. lia.
Qed.

Lemma runEntry_frozen (s s' : Settings) (n : string) (random : Q) (response : option Z)
    (pick : nat) (random' : Q) (trials : list TrialKind) (k : string) (p : Param) :
  sessionInv s -> runEntry s n random response pick random' = Some (s', trials) ->
  parameters s !! k = Some p -> param_resolved p = true ->
  parameters s' !! k = Some p /\ TitrationTrial k ∉ trials.
Proof.
  intros Hinv Hrun Hk Hp.
  destruct (runEntry_cases _ _ _ _ _ _ _ _ Hrun)
    as [(-> & -> & _) | (n' & t & l & c & b & s1 & s2 & log & Hn & Hip & E1 & E2 & Hrest)].
  { split; [exact Hk | apply not_elem_of_nil]. }
  assert (Hkn : n <> k).
  { intros <-. rewrite Hn in Hk. injection Hk as <-. unfold param_resolved in Hp.
    simpl in Hp. rewrite Hip in Hp. discriminate. }
  assert (Hkd : k <> "d0").
  { intros ->. destruct Hinv as (_ & (c0 & Hd0) & _). rewrite Hd0 in Hk.
    injection Hk as <-. discriminate. }
  destruct (start_effect _ _ _ _ _ _ _ _ _ Hn E1) as (P1 & _).
  assert (Hn1 : parameters s1 !! n = Some (TrialParam n' t l (c + 1) b))
    by (rewrite P1; apply lookup_insert_eq).
  destruct (finish_effect _ _ _ _ _ _ _ _ _ _ Hn1 E2) as (P2 & _).
  assert (Hk2 : parameters s2 !! k = Some p).
  { rewrite P2, lookup_insert_ne, P1, lookup_insert_ne by exact Hkn. exact Hk. }
  assert (Hnot : TitrationTrial k ∉ [TitrationTrial n]).
  { rewrite list_elem_of_singleton. congruence. }
  destruct Hrest as [(E3 & ->) | (-> & ->)]; [| split; assumption].
  destruct (distractor_effect _ _ _ _ _ E3) as (d0 & _ & P3 & _).
  split.
  - rewrite P3, lookup_insert_ne by congruence. exact Hk2.
  - rewrite elem_of_cons, list_elem_of_singleton. intros [H | H]; discriminate || congruence.
Qed.

Lemma runSession_facts (entries : list Entry) :
  forall (s s' : Settings) (trials : list TrialKind),
  sessionInv s -> runSession s entries = Some (s', trials) ->
  count (variables s') = count (variables s)
    + Z.of_nat (length (filter (fun t => isTitration t = true) trials)) /\
  lookupCount (parameters s') "d0" = lookupCount (parameters s) "d0"
    + Z.of_nat (length (filter (fun t => isFiller t = true) trials)) /\
  (forall k, k <> "d0" ->
     lookupCount (parameters s') k = lookupCount (parameters s) k + Z.of_nat (titrationsOf k trials)) /\
  (forall k p, parameters s !! k = Some p -> param_resolved p = true ->
     parameters s' !! k = Some p /\ TitrationTrial k ∉ trials).
Proof.
  induction entries as [| e rest IH]; intros s s' trials Hinv; simpl.
  - intros E; injection E as <- <-. simpl. split; [lia | split; [lia | split]].
    + intros k _. unfold titrationsOf. simpl. lia.
    + intros k p Hk _. split; [exact Hk | apply not_elem_of_nil].
  - destruct (runEntry s _ _ _ _ _) as [[s1 tr1] |] eqn:E1; [| discriminate].
    destruct (runSession s1 rest) as [[s2 tr2] |] eqn:E2; [| discriminate].
    intros E; injection E as <- <-.
    pose proof (sessionInv_runEntry _ _ _ _ _ _ _ _ Hinv E1) as Hinv1.
    destruct (runEntry_counts _ _ _ _ _ _ _ _ Hinv E1) as (A1 & B1 & K1).
    destruct (IH s1 s2 tr2 Hinv1 E2) as (A2 & B2 & K2 & F2).
    rewrite !filter_app, !length_app. split; [| split; [| split]].
    + rewrite A2, A1. lia.
    + rewrite B2, B1. lia.
    + intros k Hk. rewrite K2, K1, titrationsOf_app by exact Hk. lia.
    + intros k p Hk Hp.
      destruct (runEntry_frozen _ _ _ _ _ _ _ _ k p Hinv E1 Hk Hp) as [Hk1 Hn1].
      destruct (F2 k p Hk1 Hp) as [Hk2 Hn2].
      split; [exact Hk2 |]. rewrite elem_of_app. intros [H | H]; contradiction.
Qed.

Lemma prepareSettings_lookupCount (us : UserSettings) (k : string) :
  lookupCount (parameters (prepareSettings us)) k = 0.
Proof.
  unfold lookupCount. destruct (parameters (prepareSettings us) !! k) as [p |] eqn:Ek;
    [| reflexivity].
  exact (proj1 (proj2 (proj2 (proj1 (prepareSettings_entries us) k p Ek)))).
Qed.

Lemma pretty_N_go_ne_single (c : Ascii.ascii) (x : N) (s : string) :
  (forall d : N, pretty_N_char d <> c) -> s <> String c "" -> pretty_N_go x s <> String c "".
Proof.
  intros Hc. revert s. induction (N.lt_wf_0 x) as [x _ IH]; intros s Hs.
  assert (x = 0 \/ 0 < x)%N as [-> | Hx] by lia.
  - rewrite pretty_N_go_0. exact Hs.
  - rewrite pretty_N_go_step by exact Hx. apply IH; [apply N.div_lt; lia |].
    intros E. injection E as E _. exact (Hc _ E).
Qed.

Lemma pretty_Z_ne_single (c : Ascii.ascii) (z : Z) :
  (forall d : N, pretty_N_char d <> c) -> c <> "0"%char -> c <> "-"%char ->
  pretty z <> String c "".
Proof.
  intros Hc H0 Hd. destruct z as [| x | x]; unfold pretty, pretty_Z.
  - intros E. injection E as E. exact (H0 (eq_sym E)).
  - unfold pretty, pretty_positive, pretty, pretty_N. case_decide; [discriminate |].
    apply pretty_N_go_ne_single; [exact Hc | discriminate].
  - simpl. intros E. injection E as E _. exact (Hd (eq_sym E)).
Qed.

Lemma responseLabel_other (response : option Z) :
  response <> Some 0 -> response <> Some 1 ->
  String.eqb (responseLabel response) "A" = false /\ String.eqb (responseLabel response) "B" = false.
Proof.
  intros H0 H1. split; apply String.eqb_neq;
    (destruct response as [[| [] | []] |]; simpl; try congruence;
     try (apply pretty_Z_ne_single; [intros []; simpl; repeat (case_match; try discriminate) |
                                     discriminate | discriminate]);
     discriminate).
Qed.

(** Extra X3: when a titration trial starts on a condition whose bracket
    ends are multiples of [step] with [bmax <= tmax], the handler always
    succeeds; the amount it offers lies in [[bmax, tmax]] and is a multiple
    of [step]; the stimulus shows that amount, the standard amount and the
    condition's delay or probability; both trial counters go up by one and
    the bracket is left as it was. *)
Theorem handleOnDelaiedDiscountingStart_offer (s : Settings) (n n' : string) (t : ParamType)
    (l c : Z) (b : Bracket) (random : Q) :
  parameters s !! n = Some (TrialParam n' t l c b) ->
  0 < step (user s) -> (step (user s) | tmax b) -> (step (user s) | bmax b) ->
  bmax b <= tmax b -> (0 <= random <= 1)%Q ->
  exists s1, handleOnDelaiedDiscountingStart s n random = Some s1 /\
    bmax b <= reword (variables s1) <= tmax b /\ (step (user s) | reword (variables s1)) /\
    stimulus (variables s1)
    = match t with
      | temporal_delay => STemporal (reword (variables s1)) (standard (user s)) l
      | probability_delay => SProbability (reword (variables s1)) (standard (user s)) l
      | distractor => SUndefined
      end /\
    count (variables s1) = count (variables s) + 1 /\
    parameters s1 !! n = Some (TrialParam n' t l (c + 1) b).
Proof.
  intros Hn Hs [k Hk] [j Hj] Hjk Hu.
  assert (Hjk' : j <= k) by nia.
  destruct (getRewardValue_range (tmax b) (bmax b) (step (user s)) random k j Hs Hu Hk Hj Hjk')
    as (m & Hm & Hmr).
  unfold handleOnDelaiedDiscountingStart. rewrite Hn. unfold getStimulousString. simpl.
  rewrite lookup_insert_eq.
  destruct t; (eexists; split; [reflexivity |]); simpl; rewrite Hm;
    (split; [nia | split; [exists m; reflexivity | split; [reflexivity | split; [reflexivity |]]]]);
    apply lookup_insert_eq.
Qed.

Lemma handleOnDelaiedDiscountingStart_offer_witness :
  exists s1,
    handleOnDelaiedDiscountingStart (prepareSettings getUserDefinedSettings) "p2" (1 # 3) = Some s1 /\
    0 <= reword (variables s1) <= 1000 /\ (50 | reword (variables s1)) /\
    stimulus (variables s1) = SProbability (reword (variables s1)) 1000 90 /\
    count (variables s1) = 1 /\
    parameters s1 !! "p2" = Some (TrialParam "p2" probability_delay 90 1 (initBracket 1000)).
Proof.
  exact (handleOnDelaiedDiscountingStart_offer (prepareSettings getUserDefinedSettings) "p2" "p2"
           probability_delay 90 0 (initBracket 1000) (1 # 3)
           ltac:(vm_compute; reflexivity) ltac:(vm_compute; reflexivity)
           ltac:(exists 20; reflexivity) ltac:(exists 0; reflexivity) ltac:(simpl; lia)
           ltac:(split; vm_compute; discriminate)).
Defined.

(** Extra X4: a recorded response other than button 0 or 1 (another index
    or [null]) on a condition with no indifference point leaves the settings
    exactly as they were and logs one invalid-response message with the
    response's text. *)
Theorem handleOnDelaiedDiscountingFinish_other_response (s : Settings) (n n' : string)
    (t : ParamType) (l c : Z) (b : Bracket) (response : option Z) :
  parameters s !! n = Some (TrialParam n' t l c b) -> ip b = None ->
  response <> Some 0 -> response <> Some 1 ->
  handleOnDelaiedDiscountingFinish s n response
  = Some (s, [InvalidResponse (responseLabel response)]).
Proof.
  intros Hn Hip H0 H1. destruct (responseLabel_other response H0 H1) as [HA HB].
  unfold handleOnDelaiedDiscountingFinish. rewrite Hn.
  unfold updateParameters. destruct b as [tn tx bn bx i]. simpl in Hip. subst i.
  rewrite HA, HB. simpl. rewrite insert_id by exact Hn.
  destruct s as [us [cnt rw st nips] thr m]. reflexivity.
Qed.

Lemma handleOnDelaiedDiscountingFinish_other_response_witness :
  handleOnDelaiedDiscountingFinish (prepareSettings getUserDefinedSettings) "t1" None
  = Some (prepareSettings getUserDefinedSettings, [InvalidResponse "null"]).
Proof.
  exact (handleOnDelaiedDiscountingFinish_other_response (prepareSettings getUserDefinedSettings)
           "t1" "t1" temporal_delay 0 0 (initBracket 1000) None
           ltac:(vm_compute; reflexivity) ltac:(reflexivity) ltac:(discriminate)
           ltac:(discriminate)).
Defined.

(** Extra X5: [updateParameters] never clears an indifference point: once
    [ip] is set it stays set, either to its old value or, when the bracket
    is still narrow enough after a valid choice, to the amount just
    offered. *)
Theorem updateParameters_keeps_ip (response : string) (reword : Z) (b : Bracket)
    (standard threshold x : Z) :
  ip b = Some x ->
  exists y, ip (fst (updateParameters response reword b standard threshold)) = Some y /\
            (y = x \/ y = reword).
Proof.
  intros Hip. destruct b as [tn tx bn bx i]. simpl in Hip. subst i.
  unfold updateParameters. repeat (case_match; simpl); eauto.
Qed.

Lemma updateParameters_keeps_ip_witness :
  ip (mkBracket 950 1000 900 900 (Some 950)) = Some 950 /\
  exists y, ip (fst (updateParameters "A" 980 (mkBracket 950 1000 900 900 (Some 950)) 1000 50))
            = Some y /\ (y = 950 \/ y = 980).
Proof.
  split; [reflexivity |].
  exact (updateParameters_keeps_ip "A" 980 (mkBracket 950 1000 900 900 (Some 950)) 1000 50 950
           eq_refl).
Defined.

(** Extra X6: a distractor trial that runs shows the stimulus of a
    condition present in the settings whose kind is the opposite of the
    titration trial just run (a probability condition after a temporal one
    and conversely), with a dummy amount in [[0, standard]] that is a
    multiple of [step]. *)
Theorem handleOnDistractorStart_stimulus (s s3 : Settings) (last : string) (pick : nat)
    (random : Q) :
  wellNamed (parameters s) -> 0 < step (user s) -> (step (user s) | standard (user s)) ->
  0 <= standard (user s) -> (0 <= random <= 1)%Q ->
  handleOnDistractorStart s last pick random = Some s3 ->
  exists lp k q, parameters s !! last = Some lp /\ parameters s !! k = Some q /\
    param_type q = oppositeType (param_type lp) /\
    0 <= reword (variables s3) <= standard (user s) /\ (step (user s) | reword (variables s3)) /\
    stimulus (variables s3)
    = match q with
      | TrialParam _ temporal_delay lvl _ _ =>
          STemporal (reword (variables s3)) (standard (user s)) lvl
      | TrialParam _ probability_delay lvl _ _ =>
          SProbability (reword (variables s3)) (standard (user s)) lvl
      | _ => SUndefined
      end.
Proof.
  intros Hw Hs [k0 Hk0] Hstd Hu. unfold handleOnDistractorStart.
  destruct (parameters s !! last) as [lp |] eqn:El; [| discriminate].
  destruct (filter _ _ !! pick) as [chosen |] eqn:Ec; [| discriminate].
  destruct (parameters s !! "d0") as [d0 |] eqn:Ed0; [| discriminate].
  destruct (getStimulousString _ _) as [st |] eqn:Est; [| discriminate].
  intros E; injection E as <-.
  apply list_elem_of_lookup_2, list_elem_of_filter in Ec as [Hty Hin].
  apply list_elem_of_In, in_map_iff in Hin as [[k q] [Hq Hin]]. simpl in Hq. subst q.
  apply list_elem_of_In, elem_of_map_to_list in Hin.
  assert (Hname : param_name chosen = k) by exact (Hw k chosen Hin).
  assert (Hj : 0 = 0 * step (user s)) by lia.
  assert (Hk0' : 0 <= k0) by nia.
  destruct (getRewardValue_range (standard (user s)) 0 (step (user s)) random k0 0 Hs Hu Hk0 Hj Hk0')
    as (m & Hm & Hmr).
  exists lp, k, chosen. split; [reflexivity | split; [exact Hin | split; [exact Hty |]]].
  simpl. rewrite Hm. split; [nia | split; [exists m; reflexivity |]].
  unfold getStimulousString in Est. simpl in Est. rewrite Hname in Est.
  destruct (decide (k = "d0")) as [-> | Hne].
  - rewrite lookup_insert_eq in Est. rewrite Hin in Ed0. injection Ed0 as <-.
    rewrite <- Hm.
    destruct chosen as [? [] ? ? ? | ? ?]; simpl in Est; injection Est as <-; reflexivity.
  - rewrite lookup_insert_ne in Est by congruence. rewrite Hin in Est. rewrite <- Hm.
    destruct chosen as [? [] ? ? ? | ? ?]; injection Est as <-; reflexivity.
Qed.

Lemma handleOnDistractorStart_stimulus_witness :
  match handleOnDistractorStart (prepareSettings getUserDefinedSettings) "t1" 2 (1 # 2) with
  | Some s3 =>
      exists lp k q, parameters (prepareSettings getUserDefinedSettings) !! "t1" = Some lp /\
        parameters (prepareSettings getUserDefinedSettings) !! k = Some q /\
        param_type q = oppositeType (param_type lp) /\
        0 <= reword (variables s3) <= 1000 /\ (50 | reword (variables s3)) /\
        stimulus (variables s3)
        = match q with
          | TrialParam _ temporal_delay lvl _ _ => STemporal (reword (variables s3)) 1000 lvl
          | TrialParam _ probability_delay lvl _ _ => SProbability (reword (variables s3)) 1000 lvl
          | _ => SUndefined
          end
  | None => False
  end.
Proof.
  destruct (handleOnDistractorStart (prepareSettings getUserDefinedSettings) "t1" 2 (1 # 2))
    as [s3 |] eqn:E; [| vm_compute in E; discriminate].
  exact (handleOnDistractorStart_stimulus (prepareSettings getUserDefinedSettings) s3 "t1" 2 (1 # 2)
           (proj1 (sessionInv_prepareSettings getUserDefinedSettings))
           ltac:(vm_compute; reflexivity) ltac:(exists 20; reflexivity) ltac:(vm_compute; discriminate)
           ltac:(split; vm_compute; discriminate) E).
Defined.

(** Extra X7: when the settings hold no condition of the kind opposite to
    the titration trial just run, the distractor trial throws (the sampled
    element is [undefined]) whatever the draws. *)
Theorem handleOnDistractorStart_no_candidate (s : Settings) (last : string) (lp : Param)
    (pick : nat) (random : Q) :
  parameters s !! last = Some lp ->
  map_Forall (fun _ q => param_type q <> oppositeType (param_type lp)) (parameters s) ->
  handleOnDistractorStart s last pick random = None.
Proof.
  intros Hl Hnone. unfold handleOnDistractorStart. rewrite Hl.
  destruct (filter _ _ !! pick) as [chosen |] eqn:Ec; [| reflexivity].
  exfalso. apply list_elem_of_lookup_2, list_elem_of_filter in Ec as [Hty Hin].
  apply list_elem_of_In, in_map_iff in Hin as [[k q] [Hq Hin]]. simpl in Hq. subst q.
  apply list_elem_of_In, elem_of_map_to_list in Hin.
  exact (Hnone k chosen Hin Hty).
Qed.

Lemma handleOnDistractorStart_no_candidate_witness :
  handleOnDistractorStart (prepareSettings (mkUserSettings 500 70 1000 50 [0; 30] [] 30))
    "t1" 0 (1 # 2) = None.
Proof.
  apply (handleOnDistractorStart_no_candidate _ "t1"
           (TrialParam "t1" temporal_delay 0 0 (initBracket 1000))).
  - vm_compute. reflexivity.
  - apply (bool_decide_unpack _). vm_compute. reflexivity.
Defined.

(** Extra X8: the payoff trial, when it runs, shows the amount and the
    stimulus recorded in one row of the data named 'delaied_discounting'
    (never a distractor or payoff row) and changes nothing else in the
    settings. *)
Theorem handleOnPayoffStart_titration_row (data : list TrialData) (pick : nat) (s s' : Settings) :
  handleOnPayoffStart data pick s = Some s' ->
  exists r, r ∈ data /\ data_name r = "delaied_discounting" /\
    reword (variables s') = data_reword r /\ stimulus (variables s') = data_choices r /\
    count (variables s') = count (variables s) /\
    number_of_ips (variables s') = number_of_ips (variables s) /\
    parameters s' = parameters s /\ user s' = user s.
Proof.
  unfold handleOnPayoffStart.
  destruct (filter _ data !! pick) as [r |] eqn:Er; [| discriminate].
  intros E; injection E as <-.
  apply list_elem_of_lookup_2, list_elem_of_filter in Er as [Hname Hin].
  exists r. simpl. repeat split; assumption.
Qed.

Lemma handleOnPayoffStart_titration_row_witness :
  match handleOnPayoffStart
          [mkTrialData "distractor" 350 (SProbability 350 1000 90);
           mkTrialData "delaied_discounting" 600 (STemporal 600 1000 30)] 0
          (prepareSettings getUserDefinedSettings) with
  | Some s' =>
      exists r, r ∈ [mkTrialData "distractor" 350 (SProbability 350 1000 90);
                     mkTrialData "delaied_discounting" 600 (STemporal 600 1000 30)] /\
        data_name r = "delaied_discounting" /\
        reword (variables s') = data_reword r /\ stimulus (variables s') = data_choices r /\
        count (variables s') = 0 /\ number_of_ips (variables s') = 0 /\
        parameters s' = parameters (prepareSettings getUserDefinedSettings) /\
        user s' = getUserDefinedSettings
  | None => False
  end.
Proof.
  destruct (handleOnPayoffStart _ 0 _) as [s' |] eqn:E; [| vm_compute in E; discriminate].
  exact (handleOnPayoffStart_titration_row _ 0 (prepareSettings getUserDefinedSettings) s' E).
Defined.

(** Extra X9: with no row named 'delaied_discounting' in the data (for
    instance when every condition was skipped), the payoff trial throws
    whatever the draw. *)
Theorem handleOnPayoffStart_no_titration_row (data : list TrialData) (pick : nat) (s : Settings) :
  (forall r, r ∈ data -> data_name r <> "delaied_discounting") ->
  handleOnPayoffStart data pick s = None.
Proof.
  intros Hnone. unfold handleOnPayoffStart.
  destruct (filter _ data !! pick) as [r |] eqn:Er; [| reflexivity].
  apply list_elem_of_lookup_2, list_elem_of_filter in Er as [Hname Hin].
  destruct (Hnone r Hin Hname).
Qed.

Lemma handleOnPayoffStart_no_titration_row_witness :
  handleOnPayoffStart [mkTrialData "distractor" 350 (SProbability 350 1000 90)] 0
    (prepareSettings getUserDefinedSettings) = None.
Proof.
  apply handleOnPayoffStart_no_titration_row.
  intros r Hr. apply list_elem_of_singleton in Hr. subst r. simpl. discriminate.
Defined.

(** Extra X10: [getRewardValue] does not check that [bmax <= tmax]: on an
    inverted range whose ends are multiples of [step] it still returns a
    multiple of [step], now between [tmax] and [bmax]. *)
Theorem getRewardValue_inverted_range (parameters_tmax parameters_bmax step : Z) (random : Q) :
  0 < step -> (0 <= random <= 1)%Q ->
  (step | parameters_tmax) -> (step | parameters_bmax) -> parameters_tmax <= parameters_bmax ->
  parameters_tmax <= getRewardValue parameters_tmax parameters_bmax step random <= parameters_bmax /\
  (step | getRewardValue parameters_tmax parameters_bmax step random).
Proof.
  intros Hs Hu [k ->] [j ->] Hkj. assert (Hkj' : k <= j) by nia.
  unfold getRewardValue.
  match goal with |- context [jsRound ?x] => set (y := x) end.
  assert (Hb : k <= jsRound y <= j).
  { apply jsRound_between. unfold y. rewrite !div_step_exact by lia.
    rewrite Zle_Qle in Hkj'. destruct Hu as [H0 H1].
    assert (P1 : (0 <= random * (inject_Z j - inject_Z k))%Q).
    { apply Qmult_le_0_compat; [exact H0 |]. apply Qle_minus_iff in Hkj'. exact Hkj'. }
    assert (P2 : (0 <= (1 - random) * (inject_Z j - inject_Z k))%Q).
    { apply Qmult_le_0_compat; [apply Qle_minus_iff in H1; exact H1 |].
      apply Qle_minus_iff in Hkj'. exact Hkj'. }
    split; nra. }
  split; [nia | eexists; reflexivity].
Qed.

Lemma getRewardValue_inverted_range_witness :
  900 <= getRewardValue 900 1000 50 (1 # 2) <= 1000 /\ (50 | getRewardValue 900 1000 50 (1 # 2)).
Proof.
  exact (getRewardValue_inverted_range 900 1000 50 (1 # 2) ltac:(lia)
           ltac:(split; vm_compute; discriminate) ltac:(exists 18; reflexivity)
           ltac:(exists 20; reflexivity) ltac:(lia)).
Defined.

(** Extra X11: after any run of the titration block from the settings of
    [prepareSettings], the summary's [number_of_ips] equals the number of
    conditions in [trial_parameters] whose [ip] is set, every parameter
    object is still stored under its own name, and 'd0' still holds the
    distractor entry. *)
Theorem session_summary_consistent (us : UserSettings) (entries : list Entry) (s' : Settings)
    (trials : list TrialKind) :
  runSession (prepareSettings us) entries = Some (s', trials) ->
  summary_number_of_ips (saveSummary s')
  = Z.of_nat (resolvedCount (trial_parameters (saveSummary s'))) /\
  wellNamed (trial_parameters (saveSummary s')) /\
  exists c, trial_parameters (saveSummary s') !! "d0" = Some (DistractorParam "d0" c).
Proof.
  intros H.
  destruct (sessionInv_runSession entries _ _ _ (sessionInv_prepareSettings us) H) as (A & B & C).
  simpl. auto.
Qed.

Lemma session_summary_consistent_witness :
  match runSession (prepareSettings (mkUserSettings 500 1 100 50 [0] [90] 30))
          [mkEntry "t1" (1 # 2) (Some 0) 0 (1 # 2); mkEntry "p1" (1 # 2) (Some 1) 0 (1 # 2);
           mkEntry "t1" (1 # 2) (Some 0) 0 (1 # 2)] with
  | Some (s', trials) =>
      summary_number_of_ips (saveSummary s')
      = Z.of_nat (resolvedCount (trial_parameters (saveSummary s'))) /\
      wellNamed (trial_parameters (saveSummary s')) /\
      exists c, trial_parameters (saveSummary s') !! "d0" = Some (DistractorParam "d0" c)
  | None => False
  end.
Proof.
  destruct (runSession _ _) as [[s' trials] |] eqn:E; [| vm_compute in E; discriminate].
  exact (session_summary_consistent _ _ s' trials E).
Defined.

(** Extra X12: after any run of the titration block from the settings of
    [prepareSettings], the summary's [total_trial_count] is the number of
    titration trials that ran, the count of 'd0' is the number of
    distractor trials that ran, and the count of every other entry is the
    number of titration trials of that condition. *)
Theorem session_trial_counts (us : UserSettings) (entries : list Entry) (s' : Settings)
    (trials : list TrialKind) :
  runSession (prepareSettings us) entries = Some (s', trials) ->
  total_trial_count (saveSummary s')
  = Z.of_nat (length (filter (fun t => isTitration t = true) trials)) /\
  distractorCount s' = Z.of_nat (length (filter (fun t => isFiller t = true) trials)) /\
  (forall k, k <> "d0" ->
     lookupCount (trial_parameters (saveSummary s')) k = Z.of_nat (titrationsOf k trials)).
Proof.
  intros H.
  destruct (runSession_facts entries _ _ _ (sessionInv_prepareSettings us) H) as (A & B & K & _).
  simpl. split; [| split].
  - rewrite A. reflexivity.
  - change (distractorCount s') with (lookupCount (parameters s') "d0").
    rewrite B, prepareSettings_lookupCount. reflexivity.
  - intros k Hk. rewrite K, prepareSettings_lookupCount by exact Hk. reflexivity.
Qed.

Lemma session_trial_counts_witness :
  match runSession (prepareSettings (mkUserSettings 500 1 100 50 [0] [90] 30))
          [mkEntry "t1" (1 # 2) (Some 0) 0 (1 # 2); mkEntry "p1" (1 # 2) (Some 1) 0 (1 # 2);
           mkEntry "t1" (1 # 2) (Some 0) 0 (1 # 2)] with
  | Some (s', trials) =>
      total_trial_count (saveSummary s')
      = Z.of_nat (length (filter (fun t => isTitration t = true) trials)) /\
      distractorCount s' = Z.of_nat (length (filter (fun t => isFiller t = true) trials)) /\
      (forall k, k <> "d0" ->
         lookupCount (trial_parameters (saveSummary s')) k = Z.of_nat (titrationsOf k trials))
  | None => False
  end.
Proof.
  destruct (runSession _ _) as [[s' trials] |] eqn:E; [| vm_compute in E; discriminate].
  exact (session_trial_counts _ _ s' trials E).
Defined.

(** Extra X13: once a condition's indifference point is set during the
    titration block, every later entry of the block leaves that condition's
    parameter object exactly as it is (bracket, [ip] and [count]) and runs
    no titration trial for it. *)
Theorem session_resolved_frozen (us : UserSettings) (entries1 entries2 : list Entry)
    (s1 s2 : Settings) (tr1 tr2 : list TrialKind) (k : string) (p : Param) :
  runSession (prepareSettings us) entries1 = Some (s1, tr1) ->
  runSession s1 entries2 = Some (s2, tr2) ->
  parameters s1 !! k = Some p -> param_resolved p = true ->
  parameters s2 !! k = Some p /\ TitrationTrial k ∉ tr2.
Proof.
  intros H1 H2 Hk Hp.
  pose proof (sessionInv_runSession entries1 _ _ _ (sessionInv_prepareSettings us) H1) as Hinv.
  exact (proj2 (proj2 (proj2 (runSession_facts entries2 _ _ _ Hinv H2))) k p Hk Hp).
Qed.

Lemma session_resolved_frozen_witness :
  match runSession (prepareSettings (mkUserSettings 500 1 100 50 [0] [90] 30))
          [mkEntry "t1" (1 # 2) (Some 0) 0 (1 # 2); mkEntry "t1" (1 # 2) (Some 0) 0 (1 # 2)] with
  | Some (s1, tr1) =>
      match runSession s1 [mkEntry "t1" (1 # 2) (Some 1) 0 (1 # 2);
                           mkEntry "p1" (1 # 2) (Some 1) 0 (1 # 2)] with
      | Some (s2, tr2) =>
          match parameters s1 !! "t1" with
          | Some p => param_resolved p = true /\
                      parameters s2 !! "t1" = Some p /\ TitrationTrial "t1" ∉ tr2
          | None => False
          end
      | None => False
      end
  | None => False
  end.
Proof.
  assert (Hc : match runSession (prepareSettings (mkUserSettings 500 1 100 50 [0] [90] 30))
                 [mkEntry "t1" (1 # 2) (Some 0) 0 (1 # 2); mkEntry "t1" (1 # 2) (Some 0) 0 (1 # 2)]
               with
               | Some (s1, _) =>
                   match runSession s1 [mkEntry "t1" (1 # 2) (Some 1) 0 (1 # 2);
                                        mkEntry "p1" (1 # 2) (Some 1) 0 (1 # 2)] with
                   | Some _ => match parameters s1 !! "t1" with
                               | Some p => param_resolved p
                               | None => false
                               end
                   | None => false
                   end
               | None => false
               end = true) by (vm_compute; reflexivity).
  destruct (runSession (prepareSettings _) _) as [[s1 tr1] |] eqn:E1; [| discriminate Hc].
  destruct (runSession s1 _) as [[s2 tr2] |] eqn:E2; [| discriminate Hc].
  destruct (parameters s1 !! "t1") as [p |] eqn:Ep; [| discriminate Hc].
  split; [exact Hc |].
  exact (session_resolved_frozen _ _ _ s1 s2 tr1 tr2 "t1" p E1 E2 Ep Hc).
Defined.

Lemma candidatesOf_insert (m : gmap string Param) (k : string) (v w : Param) (t : ParamType) :
  m !! k = Some v -> param_type v = param_type w ->
  length (candidatesOf (<[k := w]> m) t) = length (candidatesOf m t).
Proof.
  intros Hk Hty.
  rewrite <- (insert_delete_eq m k w).
  rewrite <- (insert_delete_id m k v Hk) at 2.
  unfold candidatesOf.
  rewrite !(map_to_list_insert _ k) by apply lookup_delete_eq.
  simpl. rewrite !filter_cons. rewrite Hty.
  destruct (decide (param_type w = t)); reflexivity.
Qed.

Lemma getStimulousString_some (s : Settings) (k : string) (p : Param) :
  parameters s !! k = Some p -> exists st, getStimulousString s k = Some st.
Proof.
  intros Hk. unfold getStimulousString. rewrite Hk.
  destruct p as [? [] ? ? ? | ? ?]; eexists; reflexivity.
Qed.

Lemma runEntry_completes (s : Settings) (n n' : string) (t : ParamType) (l c : Z) (b : Bracket)
    (random : Q) (response : option Z) (pick : nat) (random' : Q) :
  sessionInv s -> parameters s !! n = Some (TrialParam n' t l c b) ->
  (pick < length (candidatesOf (parameters s) (oppositeType t)))%nat ->
  exists s' trials, runEntry s n random response pick random' = Some (s', trials).
Proof.
  intros Hinv Hn Hpick. unfold runEntry, ipUndetermined. rewrite Hn. simpl.
  destruct (ip b) as [x |] eqn:Hip; [eauto |].
  destruct (handleOnDelaiedDiscountingStart s n random) as [s1 |] eqn:E1.
  2:{ exfalso. unfold handleOnDelaiedDiscountingStart, getStimulousString in E1.
      rewrite Hn in E1. simpl in E1. rewrite lookup_insert_eq in E1.
      destruct t; discriminate. }
  destruct (start_effect _ _ _ _ _ _ _ _ _ Hn E1) as (P1 & _).
  assert (Hn1 : parameters s1 !! n = Some (TrialParam n' t l (c + 1) b))
    by (rewrite P1; apply lookup_insert_eq).
  destruct (handleOnDelaiedDiscountingFinish s1 n response) as [[s2 log] |] eqn:E2.
  2:{ exfalso. unfold handleOnDelaiedDiscountingFinish in E2. rewrite Hn1 in E2.
      destruct (updateParameters _ _ _ _ _); discriminate. }
  destruct (finish_effect _ _ _ _ _ _ _ _ _ _ Hn1 E2) as (P2 & _).
  destruct (distractorConditional s2); [| eauto].
  assert (Hinv2 : sessionInv s2).
  { assert (Hnd : n <> "d0") by exact (sessionInv_not_d0 _ _ _ _ _ _ _ Hinv Hn).
    assert (Hname : n' = n) by exact (proj1 Hinv n _ Hn).
    destruct (start_effect _ _ _ _ _ _ _ _ _ Hn E1) as (_ & _ & N1 & _).
    destruct (finish_effect _ _ _ _ _ _ _ _ _ _ Hn1 E2) as (_ & _ & N2 & _).
    assert (Hinv1 : sessionInv s1).
    { apply (sessionInv_insert s s1 n _ (TrialParam n' t l (c + 1) b) Hinv Hn); auto.
      - intros ->; contradiction.
      - rewrite N1. unfold param_resolved. simpl. lia. }
    refine (sessionInv_insert s1 s2 n _ _ Hinv1 Hn1 _ _ P2 _);
      [exact Hname | intros ->; contradiction |].
    rewrite N2. unfold param_resolved. simpl. rewrite Hip. destruct (ip (fst _)); lia. }
  assert (Hn2 : parameters s2 !! n = Some (TrialParam n' t l (c + 1)
                  (fst (updateParameters (responseLabel response) (reword (variables s1)) b
                                         (standard (user s1)) (threshold s1)))))
    by (rewrite P2; apply lookup_insert_eq).
  assert (Hlen : length (candidatesOf (parameters s2) (oppositeType t))
                 = length (candidatesOf (parameters s) (oppositeType t))).
  { rewrite P2, (candidatesOf_insert _ n (TrialParam n' t l (c + 1) b)) by (exact Hn1 || reflexivity).
    rewrite P1. apply (candidatesOf_insert _ n (TrialParam n' t l c b)); [exact Hn | reflexivity]. }
  rewrite <- Hlen in Hpick. apply lookup_lt_is_Some_2 in Hpick as [chosen Hc].
  unfold handleOnDistractorStart. rewrite Hn2. simpl param_type.
  unfold candidatesOf in Hc. rewrite Hc.
  destruct Hinv2 as (Hw2 & (c2 & Hd2) & _). rewrite Hd2.
  apply list_elem_of_lookup_2, list_elem_of_filter in Hc as [_ Hin].
  apply list_elem_of_In, in_map_iff in Hin as [[k q] [Hq Hin]]. simpl in Hq. subst q.
  apply list_elem_of_In, elem_of_map_to_list in Hin.
  rewrite (Hw2 k chosen Hin).
  match goal with |- context [getStimulousString ?s0 k] =>
    assert (Hk0 : exists p0, parameters s0 !! k = Some p0) end.
  { simpl. destruct (decide ("d0" = k)) as [<- | Hne].
    - eexists. apply lookup_insert_eq.
    - exists chosen. rewrite lookup_insert_ne by exact Hne. exact Hin. }
  destruct Hk0 as [p0 Hk0]. destruct (getStimulousString_some _ _ _ Hk0) as [st ->]. eauto.
Qed.


Lemma runEntry_shape (s s' : Settings) (n : string) (random : Q) (response : option Z)
    (pick : nat) (random' : Q) (trials : list TrialKind) :
  sessionInv s -> runEntry s n random response pick random' = Some (s', trials) ->
  (forall t, length (candidatesOf (parameters s') t) = length (candidatesOf (parameters s) t)) /\
  (forall k t, isConditionOf (parameters s) k t -> isConditionOf (parameters s') k t).
Proof.
  intros Hinv Hrun.
  destruct (runEntry_cases _ _ _ _ _ _ _ _ Hrun)
    as [(_ & -> & _) | (n' & t & l & c & b & s1 & s2 & log & Hn & Hip & E1 & E2 & Hrest)];
    [split; auto |].
  destruct (start_effect _ _ _ _ _ _ _ _ _ Hn E1) as (P1 & _).
  assert (Hn1 : parameters s1 !! n = Some (TrialParam n' t l (c + 1) b))
    by (rewrite P1; apply lookup_insert_eq).
  destruct (finish_effect _ _ _ _ _ _ _ _ _ _ Hn1 E2) as (P2 & _).
  assert (L2 : forall t', length (candidatesOf (parameters s2) t')
                          = length (candidatesOf (parameters s) t')).
  { intros t'. rewrite P2, (candidatesOf_insert _ n (TrialParam n' t l (c + 1) b))
      by (exact Hn1 || reflexivity).
    rewrite P1. apply (candidatesOf_insert _ n (TrialParam n' t l c b)); [exact Hn | reflexivity]. }
  assert (C2 : forall k t', isConditionOf (parameters s) k t' -> isConditionOf (parameters s2) k t').
  { intros k t' (m1 & l1 & c1 & b1 & Hk). unfold isConditionOf. rewrite P2, P1.
    destruct (decide (n = k)) as [<- | Hne].
    - rewrite Hn in Hk. injection Hk as <- <- <- <- <-. rewrite lookup_insert_eq.
      do 4 eexists. reflexivity.
    - rewrite !lookup_insert_ne by exact Hne. do 4 eexists. exact Hk. }
  destruct Hrest as [(E3 & _) | (-> & _)]; [| split; assumption].
  destruct (distractor_effect _ _ _ _ _ E3) as (d0 & Hd0 & P3 & _).
  split.
  - intros t'. rewrite P3, (candidatesOf_insert _ "d0" d0) by (exact Hd0 || (destruct d0; reflexivity)).
    apply L2.
  - intros k t' Hk. apply C2 in Hk as (m1 & l1 & c1 & b1 & Hk). unfold isConditionOf. rewrite P3.
    destruct (decide ("d0" = k)) as [<- | Hne].
    + rewrite Hd0 in Hk. injection Hk as ->. rewrite lookup_insert_eq. do 4 eexists. reflexivity.
    + rewrite lookup_insert_ne by exact Hne. do 4 eexists. exact Hk.
Qed.

Lemma runSession_completes (entries : list Entry) :
  forall s : Settings, sessionInv s ->
  (forall e, e ∈ entries -> exists t, isConditionOf (parameters s) (e_name e) t /\
     (e_pick e < length (candidatesOf (parameters s) (oppositeType t)))%nat) ->
  exists s' trials, runSession s entries = Some (s', trials).
Proof.
  induction entries as [| e rest IH]; intros s Hinv Hall; simpl; [eauto |].
  destruct (Hall e (proj2 (elem_of_cons rest e e) (or_introl eq_refl))) as (t & (n' & l & c & b & Hn) & Hpick).
  destruct (runEntry_completes s (e_name e) n' t l c b (e_random e) (e_response e) (e_pick e)
              (e_random' e) Hinv Hn Hpick) as (s1 & tr1 & E1).
  rewrite E1.
  destruct (runEntry_shape _ _ _ _ _ _ _ _ Hinv E1) as [Hlen Hcond].
  destruct (IH s1 (sessionInv_runEntry _ _ _ _ _ _ _ _ Hinv E1)) as (s2 & tr2 & E2).
  { intros e' He'. destruct (Hall e' (proj2 (elem_of_cons rest e' e) (or_intror He'))) as (t' & Hc & Hp).
    exists t'. split; [exact (Hcond _ _ Hc) | rewrite Hlen; exact Hp]. }
  rewrite E2. eauto.
Qed.

(** Extra X14: the titration block started from the settings of
    [prepareSettings] never throws on a sequence of entries that each name a
    titration condition and whose distractor draw [pick] indexes the
    conditions of the opposite kind; it runs to the end and returns the
    final settings. *)
Theorem session_completes (us : UserSettings) (entries : list Entry) :
  (forall e, e ∈ entries -> exists t, isConditionOf (parameters (prepareSettings us)) (e_name e) t /\
     (e_pick e < length (candidatesOf (parameters (prepareSettings us)) (oppositeType t)))%nat) ->
  exists s' trials, runSession (prepareSettings us) entries = Some (s', trials).
Proof.
  intros Hall. exact (runSession_completes entries _ (sessionInv_prepareSettings us) Hall).
Qed.

Lemma session_completes_witness :
  exists s' trials,
    runSession (prepareSettings (mkUserSettings 500 1 1000 50 [0; 30] [90] 30))
      [mkEntry "t2" (1 # 2) (Some 1) 0 (1 # 3); mkEntry "p1" (1 # 4) (Some 0) 0 (2 # 3);
       mkEntry "t1" (1 # 5) None 0 (1 # 2)] = Some (s', trials).
Proof.
  apply session_completes. intros e He.
  repeat (apply elem_of_cons in He as [-> | He]);
    [| | | apply not_elem_of_nil in He; contradiction].
  - exists temporal_delay. split; [do 4 eexists; vm_compute; reflexivity | vm_compute; lia].
  - exists probability_delay. split; [do 4 eexists; vm_compute; reflexivity | vm_compute; lia].
  - exists temporal_delay. split; [do 4 eexists; vm_compute; reflexivity | vm_compute; lia].
Defined.

Lemma prepareSettings_values (us : UserSettings) (k : string) (p : Param) :
  parameters (prepareSettings us) !! k = Some p -> p ∈ trialParameters us.
Proof.
  rewrite prepareSettings_parameters. intros Hk.
  assert (HF : map_Forall (fun _ q => q ∈ trialParameters us)
                          (foldl insertByName ∅ (trialParameters us))).
  { apply foldl_insertByName_forall; [apply map_Forall_empty |].
    apply Forall_forall. auto. }
  exact (HF k p Hk).
Qed.

(** Extra X15: the names [prepareTrialSequence] draws the trial sequence
    from are exactly the keys of the titration conditions built by
    [prepareSettings]; the distractor entry 'd0' is never among them. *)
Theorem trialNames_prepareSettings (us : UserSettings) (k : string) :
  k ∈ trialNames (prepareSettings us) <->
  exists t, isConditionOf (parameters (prepareSettings us)) k t.
Proof.
  destruct (prepareSettings_entries us) as [Hall Hd0].
  unfold trialNames. rewrite list_elem_of_filter, list_elem_of_In, in_map_iff. split.
  - intros [Hk [[k' p] [Hfst Hin]]]. simpl in Hfst. subst k'.
    apply list_elem_of_In, elem_of_map_to_list in Hin.
    assert (Hname : param_name p = k) by exact (proj1 (Hall k p Hin)).
    destruct (trialParameters_names us p (prepareSettings_values us k p Hin))
      as [(j & v & _ & ->) | [(j & v & _ & ->) | ->]].
    + exists temporal_delay. do 4 eexists. exact Hin.
    + exists probability_delay. do 4 eexists. exact Hin.
    + simpl in Hname. subst k. contradiction.
  - intros (t & n & l & c & b & Hk). split.
    + intros ->. rewrite Hd0 in Hk. discriminate.
    + exists (k, TrialParam n t l c b). split; [reflexivity |].
      apply list_elem_of_In, elem_of_map_to_list. exact Hk.
Qed.
